(** * Nova Social API: request validation, document shaping and the
    keyword chatbot of [main.py] and [schemas.py]

  The development is a shallow embedding.  Python [str] values are
  modelled as Rocq strings whose characters are the code points 0..255
  (Latin-1); [str.strip], [str.lower] and the [in] operator are written
  out for that range.  Dictionaries are [gmap string value]. *)

From Stdlib Require Import ZArith NArith Ascii String List Bool Lia.
From Stdlib Require Import Numbers.DecimalString.
From stdpp Require Import base option list strings gmap fin_maps.

Local Open Scope string_scope.
Local Open Scope list_scope.

(** ** Python string primitives *)

Module PyStr.

(** [not text] on a [str]: true exactly for the empty string. *)
Definition falsy (s : string) : bool :=
  match s with
  | EmptyString => true
  | String _ _ => false
  end.

(** Code points for which [str.isspace] holds, below 256:
    TAB, LF, VT, FF, CR, FS, GS, RS, US, SPACE, NEL and NBSP. *)
Definition isspace (c : ascii) : bool :=
  let n := nat_of_ascii c in
  (Nat.leb 9 n && Nat.leb n 13) || (Nat.leb 28 n && Nat.leb n 32)
  || Nat.eqb n 133 || Nat.eqb n 160.

Fixpoint lstrip (s : string) : string :=
  match s with
  | EmptyString => EmptyString
  | String c s' => if isspace c then lstrip s' else s
  end.

Fixpoint rstrip (s : string) : string :=
  match s with
  | EmptyString => EmptyString
  | String c s' =>
      let r := rstrip s' in
      if isspace c && falsy r then EmptyString else String c r
  end.

(** [s.strip()]: drop the leading, then the trailing, white space. *)
Definition strip (s : string) : string := rstrip (lstrip s).

(** [str.lower] on one code point below 256: A..Z and the upper-case
    letters U+00C0..U+00DE (without the multiplication sign U+00D7)
    move up by 32; everything else is unchanged. *)
Definition lower_char (c : ascii) : ascii :=
  let n := nat_of_ascii c in
  if (Nat.leb 65 n && Nat.leb n 90)
     || (Nat.leb 192 n && Nat.leb n 222 && negb (Nat.eqb n 215))
  then ascii_of_nat (n + 32) else c.

Fixpoint lower (s : string) : string :=
  match s with
  | EmptyString => EmptyString
  | String c s' => String (lower_char c) (lower s')
  end.

(** [s.startswith(k)]. *)
Fixpoint startswith (k s : string) : bool :=
  match k, s with
  | EmptyString, _ => true
  | String _ _, EmptyString => false
  | String a k', String b s' => Ascii.eqb a b && startswith k' s'
  end.

(** [k in s]: [k] occurs in [s] as a contiguous substring. *)
Fixpoint contains (k s : string) : bool :=
  startswith k s ||
  match s with
  | EmptyString => false
  | String _ s' => contains k s'
  end.

(** [any(k in s for k in ks)]. *)
Definition any_in (ks : list string) (s : string) : bool :=
  existsb (fun k => contains k s) ks.

(** [s[:n]]. *)
Fixpoint take (n : nat) (s : string) : string :=
  match n, s with
  | O, _ => EmptyString
  | S _, EmptyString => EmptyString
  | S n', String c s' => String c (take n' s')
  end.

Definition all_space (s : string) : bool :=
  forallb isspace (list_ascii_of_string s).

(** [repr] of a [str] (code points below 256): single quotes unless the
    text holds a single quote and no double quote; the quote character
    and the backslash are escaped, TAB, LF and CR are written with their
    letters, the other characters that are not printable as [\xhh]. *)
Definition hex_digit (n : N) : ascii :=
  ascii_of_N (if (n <? 10)%N then 48 + n else 87 + n)%N.

Fixpoint hex_fixed (digits : nat) (n : N) : string :=
  match digits with
  | O => EmptyString
  | S d => hex_fixed d (n / 16) +:+ String (hex_digit (n mod 16)) EmptyString
  end.

Definition printable (c : ascii) : bool :=
  let n := nat_of_ascii c in
  Nat.leb 32 n && negb (Nat.eqb n 127)
  && negb (Nat.leb 128 n && Nat.leb n 160) && negb (Nat.eqb n 173).

Definition repr_char (quote c : ascii) : string :=
  if Ascii.eqb c quote || Ascii.eqb c "\"%char then String "\"%char (String c EmptyString)
  else if Ascii.eqb c "009"%char then "\t"
  else if Ascii.eqb c "010"%char then "\n"
  else if Ascii.eqb c "013"%char then "\r"
  else if printable c then String c EmptyString
  else "\x" +:+ hex_fixed 2 (N_of_ascii c).

Fixpoint repr_body (quote : ascii) (s : string) : string :=
  match s with
  | EmptyString => EmptyString
  | String c s' => repr_char quote c +:+ repr_body quote s'
  end.

Definition dquote : ascii := ascii_of_nat 34.

Definition repr (s : string) : string :=
  let quote :=
    if contains "'" s && negb (contains (String dquote EmptyString) s)
    then dquote else "'"%char in
  String quote (repr_body quote s) +:+ String quote EmptyString.

End PyStr.

(** ** Values and documents *)

(** The values a stored document holds: the JSON-like field values of
    the schemas, and the [ObjectId] the store puts under ["_id"] (a
    96-bit number). *)
Inductive value :=
| VNone
| VBool (b : bool)
| VInt (z : Z)
| VStr (s : string)
| VObjectId (oid : N)
| VStrs (l : list string).

#[global] Instance value_eq_dec : EqDecision value.
Proof. solve_decision. Defined.

Abbreviation document := (gmap string value).

(** [str(v)]. An [ObjectId] prints as its 24 hexadecimal digits. *)
Definition py_str (v : value) : string :=
  match v with
  | VNone => "None"
  | VBool true => "True"
  | VBool false => "False"
  | VInt z => NilEmpty.string_of_int (Z.to_int z)
  | VStr s => s
  | VObjectId oid => PyStr.hex_fixed 24 oid
  | VStrs l => "[" +:+ String.concat ", " (map PyStr.repr l) +:+ "]"
  end.

(** A raised exception, with the text [str(e)] gives. *)
Inductive exn := Exception (msg : string).

Definition exn_str (e : exn) : string :=
  match e with Exception msg => msg end.

Record HTTPException := mkHTTPException
  { status_code : nat; detail : string }.

(** ** Field constraints, [schemas.py] *)

Inductive error_type :=
| missing
| string_too_short
| string_too_long
| greater_than_equal
| url_parsing.

Record ValidationError := mkValidationError
  { loc : string; type : error_type }.

Definition field_result (A : Type) : Type := ValidationError + A.

(** [Field(..., min_length=lo, max_length=hi)] on a [str]. *)
Definition str_field (name : string) (min_length max_length : option nat)
    (s : string) : field_result string :=
  if match min_length with
     | Some lo => Nat.ltb (String.length s) lo
     | None => false
     end
  then inl (mkValidationError name string_too_short)
  else if match max_length with
          | Some hi => Nat.ltb hi (String.length s)
          | None => false
          end
  then inl (mkValidationError name string_too_long)
  else inr s.

(** [Field(..., ge=lo)] on an [int]. *)
Definition int_field (name : string) (ge : Z) (z : Z) : field_result Z :=
  if (z <? ge)%Z then inl (mkValidationError name greater_than_equal)
  else inr z.

(** A required field, [Field(...)]: absent is an error. *)
Definition required {A B : Type} (name : string)
    (check : A -> field_result B) (given : option A) : field_result B :=
  match given with
  | None => inl (mkValidationError name missing)
  | Some a => check a
  end.

(** [Optional[...] = Field(None, ...)]: absent stays [None]. *)
Definition optional {A B : Type}
    (check : A -> field_result B) (given : option A) : field_result (option B) :=
  match given with
  | None => inr None
  | Some a =>
      match check a with
      | inl e => inl e
      | inr b => inr (Some b)
      end
  end.

(** A field with a default: the default is taken as it is when the
    field is absent. *)
Definition defaulted {A B : Type} (default : B)
    (check : A -> field_result B) (given : option A) : field_result B :=
  match given with
  | None => inr default
  | Some a => check a
  end.

Definition errors_of {A : Type} (r : field_result A) : list ValidationError :=
  match r with
  | inl e => [e]
  | inr _ => []
  end.

(** The interface of the schema classes: [model_dump]. *)
Class BaseModel (T : Type) := model_dump : T -> document.

Definition dump_opt (o : option string) : value :=
  match o with
  | Some s => VStr s
  | None => VNone
  end.

(** [HttpUrl]: the URL parser belongs to the validation library.  It
    refuses a text, or gives the URL in its normal form, which is what
    the record holds: the scheme and the host in lower case, an empty
    path written as "/".  The schemas are stated over any such parser. *)
Class HttpUrl := parse_http_url : string -> option string.

Definition url_field `{HttpUrl} (name : string) (s : string) : field_result string :=
  match parse_http_url s with
  | Some url => inr url
  | None => inl (mkValidationError name url_parsing)
  end.

Definition any_field {A : Type} (a : A) : field_result A := inr a.

Module User.

Record input := mkInput
  { in_username : option string;
    in_display_name : option string;
    in_avatar_url : option string;
    in_bio : option string;
    in_is_active : option bool }.

Record t := mk
  { username : string;
    display_name : option string;
    avatar_url : option string;
    bio : option string;
    is_active : bool }.

Definition validate `{HttpUrl} (i : input) : list ValidationError + t :=
  let username := required "username" (str_field "username" (Some 3) (Some 32)) (in_username i) in
  let display_name := optional (str_field "display_name" None (Some 64)) (in_display_name i) in
  let avatar_url := optional (url_field "avatar_url") (in_avatar_url i) in
  let bio := optional (str_field "bio" None (Some 280)) (in_bio i) in
  let is_active := defaulted true any_field (in_is_active i) in
  match username, display_name, avatar_url, bio, is_active with
  | inr a, inr b, inr c, inr d, inr e => inr (mk a b c d e)
  | _, _, _, _, _ =>
      inl (errors_of username ++ errors_of display_name ++ errors_of avatar_url
           ++ errors_of bio ++ errors_of is_active)
  end.

#[global] Instance dump : BaseModel t := fun u =>
  {[ "username" := VStr (username u);
     "display_name" := dump_opt (display_name u);
     "avatar_url" := dump_opt (avatar_url u);
     "bio" := dump_opt (bio u);
     "is_active" := VBool (is_active u) ]}.

End User.

Module Channel.

Record input := mkInput
  { in_name : option string;
    in_topic : option string;
    in_is_private : option bool }.

Record t := mk
  { name : string;
    topic : option string;
    is_private : bool }.

Definition validate (i : input) : list ValidationError + t :=
  let name := required "name" (str_field "name" (Some 2) (Some 64)) (in_name i) in
  let topic := optional (str_field "topic" None (Some 140)) (in_topic i) in
  let is_private := defaulted false any_field (in_is_private i) in
  match name, topic, is_private with
  | inr a, inr b, inr c => inr (mk a b c)
  | _, _, _ => inl (errors_of name ++ errors_of topic ++ errors_of is_private)
  end.

#[global] Instance dump : BaseModel t := fun c =>
  {[ "name" := VStr (name c);
     "topic" := dump_opt (topic c);
     "is_private" := VBool (is_private c) ]}.

End Channel.

Module Message.

Record input := mkInput
  { in_channel_id : option string;
    in_author : option string;
    in_content : option string }.

Record t := mk
  { channel_id : string;
    author : string;
    content : string }.

Definition validate (i : input) : list ValidationError + t :=
  let channel_id := required "channel_id" (str_field "channel_id" None None) (in_channel_id i) in
  let author := required "author" (str_field "author" (Some 3) (Some 32)) (in_author i) in
  let content := required "content" (str_field "content" (Some 1) (Some 4000)) (in_content i) in
  match channel_id, author, content with
  | inr a, inr b, inr c => inr (mk a b c)
  | _, _, _ => inl (errors_of channel_id ++ errors_of author ++ errors_of content)
  end.

#[global] Instance dump : BaseModel t := fun m =>
  {[ "channel_id" := VStr (channel_id m);
     "author" := VStr (author m);
     "content" := VStr (content m) ]}.

End Message.

Module Video.

Record input := mkInput
  { in_author : option string;
    in_caption : option string;
    in_video_url : option string;
    in_thumbnail_url : option string;
    in_likes : option Z;
    in_tags : option (list string) }.

Record t := mk
  { author : string;
    caption : option string;
    video_url : string;
    thumbnail_url : option string;
    likes : Z;
    tags : list string }.

Definition validate `{HttpUrl} (i : input) : list ValidationError + t :=
  let author := required "author" (str_field "author" (Some 3) (Some 32)) (in_author i) in
  let caption := optional (str_field "caption" None (Some 300)) (in_caption i) in
  let video_url := required "video_url" (url_field "video_url") (in_video_url i) in
  let thumbnail_url := optional (url_field "thumbnail_url") (in_thumbnail_url i) in
  let likes := defaulted 0%Z (int_field "likes" 0) (in_likes i) in
  let tags := defaulted [] any_field (in_tags i) in
  match author, caption, video_url, thumbnail_url, likes, tags with
  | inr a, inr b, inr c, inr d, inr e, inr f => inr (mk a b c d e f)
  | _, _, _, _, _, _ =>
      inl (errors_of author ++ errors_of caption ++ errors_of video_url
           ++ errors_of thumbnail_url ++ errors_of likes ++ errors_of tags)
  end.

#[global] Instance dump : BaseModel t := fun v =>
  {[ "author" := VStr (author v);
     "caption" := dump_opt (caption v);
     "video_url" := VStr (video_url v);
     "thumbnail_url" := dump_opt (thumbnail_url v);
     "likes" := VInt (likes v);
     "tags" := VStrs (tags v) ]}.

End Video.

Module BotMessage.

Record input := mkInput
  { in_user : option string;
    in_message : option string }.

Record t := mk
  { user : string;
    message : string }.

Definition validate (i : input) : list ValidationError + t :=
  let user := required "user" (str_field "user" (Some 3) (Some 32)) (in_user i) in
  let message := required "message" (str_field "message" (Some 1) (Some 4000)) (in_message i) in
  match user, message with
  | inr a, inr b => inr (mk a b)
  | _, _ => inl (errors_of user ++ errors_of message)
  end.

End BotMessage.

(** ** Request handlers, [main.py] *)

(** A query filter: a field is compared with a literal, or (the
    [{"$in": [...]}] form) with a list of candidates. *)
Inductive condition :=
| Equals (v : value)
| In_ (vs : list value).

Abbreviation query := (gmap string condition).

(** The body of the loop over [items]:
    [if "_id" in it: it["id"] = str(it.pop("_id"))]. *)
Definition shape_id (it : document) : document :=
  match it !! "_id" with
  | Some oid => <["id" := VStr (py_str oid)]> (delete "_id" it)
  | None => it
  end.

Definition shape_ids (items : list document) : list document :=
  map shape_id items.

(** [{"channel_id": channel_id} if channel_id else {}]. *)
Definition messages_filter (channel_id : option string) : query :=
  match channel_id with
  | Some c => if PyStr.falsy c then ∅ else {[ "channel_id" := Equals (VStr c) ]}
  | None => ∅
  end.

(** [{"tags": {"$in": [tag]}} if tag else {}]. *)
Definition videos_filter (tag : option string) : query :=
  match tag with
  | Some g => if PyStr.falsy g then ∅ else {[ "tags" := In_ [VStr g] ]}
  | None => ∅
  end.

Definition id_body (inserted_id : string) : document :=
  {[ "id" := VStr inserted_id ]}.

Section Handlers.

(** The two helpers imported from [database]: the handlers are written
    over any implementation of them.  An argument that a call leaves out
    is [None]. *)
Context {DB : Type}.
Variable create_document :
  forall (T : Type), BaseModel T -> string -> T -> DB -> (exn + string) * DB.
Variable get_documents :
  string -> option query -> option nat -> DB -> exn + list document.

Definition create_user (user : User.t) (db : DB) : (HTTPException + document) * DB :=
  match create_document User.t _ "user" user db with
  | (inr inserted_id, db') => (inr (id_body inserted_id), db')
  | (inl e, db') => (inl (mkHTTPException 500 (exn_str e)), db')
  end.

Definition list_users (db : DB) : HTTPException + list document :=
  match get_documents "user" None None db with
  | inr items => inr (shape_ids items)
  | inl e => inl (mkHTTPException 500 (exn_str e))
  end.

Definition create_channel (channel : Channel.t) (db : DB) : (HTTPException + document) * DB :=
  match create_document Channel.t _ "channel" channel db with
  | (inr inserted_id, db') => (inr (id_body inserted_id), db')
  | (inl e, db') => (inl (mkHTTPException 500 (exn_str e)), db')
  end.

Definition list_channels (db : DB) : HTTPException + list document :=
  match get_documents "channel" None None db with
  | inr items => inr (shape_ids items)
  | inl e => inl (mkHTTPException 500 (exn_str e))
  end.

Definition create_message (message : Message.t) (db : DB) : (HTTPException + document) * DB :=
  match create_document Message.t _ "message" message db with
  | (inr inserted_id, db') => (inr (id_body inserted_id), db')
  | (inl e, db') => (inl (mkHTTPException 500 (exn_str e)), db')
  end.

Definition list_messages (channel_id : option string) (db : DB) : HTTPException + list document :=
  let filter_dict := messages_filter channel_id in
  match get_documents "message" (Some filter_dict) (Some 100) db with
  | inr items => inr (shape_ids items)
  | inl e => inl (mkHTTPException 500 (exn_str e))
  end.

Definition create_video (video : Video.t) (db : DB) : (HTTPException + document) * DB :=
  match create_document Video.t _ "video" video db with
  | (inr inserted_id, db') => (inr (id_body inserted_id), db')
  | (inl e, db') => (inl (mkHTTPException 500 (exn_str e)), db')
  end.

Definition list_videos (tag : option string) (db : DB) : HTTPException + list document :=
  let filter_dict := videos_filter tag in
  match get_documents "video" (Some filter_dict) (Some 50) db with
  | inr items => inr (shape_ids items)
  | inl e => inl (mkHTTPException 500 (exn_str e))
  end.

End Handlers.

(** ** The chatbot, [main.py] lines 149-170 *)

Record BotResponse := mkBotResponse { reply : string }.

Definition video_keywords : list string := ["video"; "clip"; "reel"].
Definition channel_keywords : list string := ["channel"; "chat"; "room"].

Definition video_template (user : string) : string :=
  "Hey " +:+ user +:+
  "! That sounds like a great video idea. Want me to draft a catchy caption?".

Definition channel_template (user : string) : string :=
  "Sure " +:+ user +:+
  ", I can help you set up a new channel or find trending topics.".

Definition generic_template (user text : string) : string :=
  "Hi " +:+ user +:+ ", I hear you: '" +:+ text +:+
  "'. How can I help further?".

(** The keyword flavouring, lines 163-169: the text assigned to
    [reply] for a user and a trimmed message. *)
Definition flavored_reply (user text : string) : string :=
  if PyStr.any_in video_keywords (PyStr.lower text) then
    video_template user
  else if PyStr.any_in channel_keywords (PyStr.lower text) then
    channel_template user
  else
    generic_template user text.

Definition chatbot (msg : BotMessage.t) : HTTPException + BotResponse :=
  let user := BotMessage.user msg in
  let text := PyStr.strip (BotMessage.message msg) in
  if PyStr.falsy text then
    inl (mkHTTPException 400 "Empty message")
  else
    let reply := flavored_reply user text in
    inr (mkBotResponse reply).

(** What the framework answers on a route with a body schema: the
    schema's errors (status 422) when the body does not validate, else
    what the handler returns or raises. *)
Inductive response (A : Type) :=
| Ok (body : A)
| HTTPError (e : HTTPException)
| RequestValidationError (errors : list ValidationError).

Arguments Ok {A} body.
Arguments HTTPError {A} e.
Arguments RequestValidationError {A} errors.

Definition post_api_bot (payload : BotMessage.input) : response BotResponse :=
  match BotMessage.validate payload with
  | inl errors => RequestValidationError errors
  | inr msg =>
      match chatbot msg with
      | inl e => HTTPError e
      | inr r => Ok r
      end
  end.

(** ** The document store *)

Module Store.

(** Modelled from the spec: [database.py], from which [main.py] imports
    [db], [create_document] and [get_documents], is not among the
    sources.  Section 4.1 of the specification describes the two
    operations: [create] inserts one document into the named collection
    and returns its newly generated identifier as a string, [list]
    returns the stored documents that match the filter, up to the limit,
    in the order of the store; both fail when no database is configured. *)
Record database := mk
  { collections : gmap string (list document);
    next_oid : N }.

(** Modelled from the spec: a filter maps a field to a literal the
    field has to equal, or to a list one member of the field has to be
    part of (section 4.1, section 6). *)
Definition holds (it : document) (field : string) (c : condition) : bool :=
  match it !! field, c with
  | Some v, Equals w => bool_decide (v = w)
  | Some (VStrs l), In_ vs => existsb (fun x => bool_decide (VStr x ∈ vs)) l
  | Some v, In_ vs => bool_decide (v ∈ vs)
  | None, _ => false
  end.

(** Modelled from the spec: a document is selected when every entry of
    the filter holds of it; the empty filter selects every document. *)
Definition matches (q : query) (it : document) : bool :=
  forallb (fun fc => holds it (fst fc) (snd fc)) (map_to_list q).

(** Modelled from the spec: the error of both operations when no
    database is configured (StorageUnavailable, section 4.1). *)
Definition unavailable : exn := Exception "Database not available".

(** Modelled from the spec: [create(collectionName, record)], section 4.1. *)
Definition create_document (T : Type) (H : BaseModel T) (collection_name : string)
    (data : T) (db : option database) : (exn + string) * option database :=
  match db with
  | None => (inl unavailable, None)
  | Some d =>
      let oid := VObjectId (next_oid d) in
      let it := <["_id" := oid]> (model_dump data) in
      let stored := default [] (collections d !! collection_name) in
      (inr (py_str oid),
       Some (mk (<[collection_name := stored ++ [it]]> (collections d))
                (next_oid d + 1)))
  end.

(** Modelled from the spec: [list(collectionName, filter, limit)],
    section 4.1; the identifier is still under ["_id"], the handlers
    rename it. *)
Definition get_documents (collection_name : string) (filter_dict : option query)
    (limit : option nat) (db : option database) : exn + list document :=
  match db with
  | None => inl unavailable
  | Some d =>
      let stored := default [] (collections d !! collection_name) in
      let found := List.filter (matches (default ∅ filter_dict)) stored in
      inr (match limit with
           | Some n => take n found
           | None => found
           end)
  end.

(** A configured database with no collection yet. *)
Definition empty : option database := Some (mk ∅ 0).

(** The databases the API can build: the empty one, and what a
    [create] call turns a reachable one into. *)
Inductive reachable : option database -> Prop :=
| reachable_empty : reachable empty
| reachable_create (T : Type) (H : BaseModel T) collection_name (data : T) db :
    reachable db ->
    reachable (snd (create_document T H collection_name data db)).

(** Every stored document carries an [ObjectId] under ["_id"]. *)
Definition identified (db : option database) : Prop :=
  forall d collection_name it,
    db = Some d ->
    it ∈ default [] (collections d !! collection_name) ->
    exists oid, it !! "_id" = Some (VObjectId oid).

End Store.

(** Whether a validation result holds an error at the given field. *)
Definition at_loc (name : string) (e : ValidationError) : bool :=
  String.eqb (loc e) name.

Definition has_error_at {T : Type} (name : string)
    (r : list ValidationError + T) : bool :=
  match r with
  | inl errors => existsb (at_loc name) errors
  | inr _ => false
  end.

(** Every error of a field result is at the given field. *)
Definition located {A : Type} (name : string) (r : field_result A) : Prop :=
  forall e, r = inl e -> loc e = name.

(** A stand-in for the URL parser, for the examples.  It takes the
    texts of at most 2083 characters that are an http or https scheme in
    lower case, a host of lower-case letters in labels separated by
    single dots, and then nothing or a path of letters, digits and the
    characters / . - _ in which no segment starts with a dot.  Such a
    text is in normal form already, but for the empty path, which is
    written "/"; the parser of the library takes more texts, and
    rewrites those. *)
Definition lower_letter (c : ascii) : bool :=
  let n := nat_of_ascii c in Nat.leb 97 n && Nat.leb n 122.

Definition path_char (c : ascii) : bool :=
  let n := nat_of_ascii c in
  lower_letter c || (Nat.leb 65 n && Nat.leb n 90) || (Nat.leb 48 n && Nat.leb n 57)
  || Nat.eqb n 47 || Nat.eqb n 46 || Nat.eqb n 45 || Nat.eqb n 95.

Definition plain_path (p : string) : bool :=
  forallb path_char (list_ascii_of_string p) && negb (PyStr.contains "/." p).

(** The host and the path, from the start of a label ([start]) or
    inside one. *)
Fixpoint host_and_path (start : bool) (s : string) : option string :=
  match s with
  | EmptyString => if start then None else Some "/"
  | String c s' =>
      if lower_letter c then String c <$> host_and_path false s'
      else if Ascii.eqb c "." then
        if start then None else String c <$> host_and_path true s'
      else if Ascii.eqb c "/" then
        if start then None else if plain_path s then Some s else None
      else None
  end.

(** [s[n:]]. *)
Fixpoint skip (n : nat) (s : string) : string :=
  match n, s with
  | O, _ => s
  | S _, EmptyString => EmptyString
  | S n', String _ s' => skip n' s'
  end.

Definition scheme_only : HttpUrl := fun s =>
  if Nat.ltb 2083 (String.length s) then None
  else if PyStr.startswith "https://" s then
    String.append "https://" <$> host_and_path true (skip 8 s)
  else if PyStr.startswith "http://" s then
    String.append "http://" <$> host_and_path true (skip 7 s)
  else None.

(** What an accepted record holds for an optional URL field: nothing
    when none is given, else the normal form of the given text. *)
Definition url_given `{HttpUrl} (given held : option string) : Prop :=
  match given with
  | Some s => exists url, parse_http_url s = Some url /\ held = Some url
  | None => held = None
  end.

(** A listed document as the client sees it: no ["_id"] key, and a
    text that is not empty under ["id"]. *)
Definition public (it : document) : Prop :=
  it !! "_id" = None /\ exists id, it !! "id" = Some (VStr id) /\ id <> "".

(** A [create_document] whose store refuses every insert with the
    given error text, and sample data for the examples. *)
Definition refusing (msg : string) (T : Type) (H : BaseModel T)
    (collection_name : string) (data : T) (db : unit) : (exn + string) * unit :=
  (inl (Exception msg), db).

Definition refusing_reads (msg : string) (collection_name : string)
    (filter_dict : option query) (limit : option nat) (db : unit) : exn + list document :=
  inl (Exception msg).

Fixpoint filler (n : nat) : string :=
  match n with
  | O => EmptyString
  | S n' => String "x" (filler n')
  end.

Definition timeout_error : string :=
  "localhost:27017: [Errno 111] Connection refused, Timeout: 30s, Topology Description: <TopologyDescription id: 65f0, topology_type: Unknown, servers: []>".

Definition sample_user : User.t := User.mk "abc" None None None true.

Definition sample_message (channel_id : string) : Message.t :=
  Message.mk channel_id "abc" "hello".

(** A store after three creations: one user, and a message in each of
    two channels. *)
Definition sample_db : option Store.database :=
  let db1 := snd (Store.create_document User.t _ "user" sample_user Store.empty) in
  let db2 := snd (Store.create_document Message.t _ "message" (sample_message "c1") db1) in
  snd (Store.create_document Message.t _ "message" (sample_message "c2") db2).

(** ** The connectivity check, [main.py] lines 26-55 *)

(** The three marks the status texts start with lie above U+00FF: the
    check mark U+2705, the cross mark U+274C and the warning sign U+26A0
    with its variation selector U+FE0F.  A status text is kept as its
    mark, when it has one, and the characters that follow it. *)
Inductive mark := CheckMark | CrossMark | WarningSign.

Record text := mkText { text_mark : option mark; text_tail : string }.

Definition marked (m : mark) (tail : string) : text := mkText (Some m) tail.
Definition plain (s : string) : text := mkText None s.

(** What reading an attribute of an object gives: the attribute is not
    there ([hasattr] is false), reading it raises, or it has a value. *)
Inductive attribute :=
| NoAttribute
| Raising (e : exn)
| Having (v : string).

(** Whether reading the attribute raises. *)
Definition raising (a : attribute) : bool :=
  match a with
  | Raising _ => true
  | _ => false
  end.

(** The database handle [db], as far as the check uses it: its [name]
    attribute and what [list_collection_names()] returns or raises. *)
Record Db := mkDb
  { db_name : attribute;
    list_collection_names : exn + list string }.

Record Status := mkStatus
  { backend : text;
    database : text;
    database_url : text;
    database_name : text;
    connection_status : text;
    collections : list string }.

Definition set_database (v : text) (r : Status) : Status :=
  mkStatus (backend r) v (database_url r) (database_name r)
    (connection_status r) (collections r).

Definition set_database_url (v : text) (r : Status) : Status :=
  mkStatus (backend r) (database r) v (database_name r)
    (connection_status r) (collections r).

Definition set_database_name (v : text) (r : Status) : Status :=
  mkStatus (backend r) (database r) (database_url r) v
    (connection_status r) (collections r).

Definition set_connection_status (v : text) (r : Status) : Status :=
  mkStatus (backend r) (database r) (database_url r) (database_name r)
    v (collections r).

Definition set_collections (v : list string) (r : Status) : Status :=
  mkStatus (backend r) (database r) (database_url r) (database_name r)
    (connection_status r) v.

Definition initial_status : Status :=
  mkStatus (marked CheckMark " Running") (marked CrossMark " Not Available")
    (marked CrossMark " Not Set") (marked CrossMark " Not Set")
    (plain "Not Connected") [].

(** [os.getenv("DATABASE_URL")] read as a condition: set and not empty. *)
Definition env_truthy (v : option string) : bool :=
  match v with
  | Some s => negb (PyStr.falsy s)
  | None => false
  end.

(** [test_database()], over the handle [db] (or [None]) and the value
    of the environment variable.  The assignments made before an
    exception stay in the response. *)
Definition test_database (db : option Db) (env_database_url : option string) : Status :=
  let response := initial_status in
  match db with
  | Some d =>
      let response := set_database (marked CheckMark " Available") response in
      let response :=
        set_database_url
          (if env_truthy env_database_url then marked CheckMark " Set"
           else marked CrossMark " Not Set") response in
      match db_name d with
      | Raising e =>
          set_database (marked CrossMark (" Error: " +:+ PyStr.take 50 (exn_str e))) response
      | name =>
          let response :=
            set_database_name
              (match name with
               | Having v => plain v
               | _ => marked CheckMark " Set"
               end) response in
          let response := set_connection_status (plain "Connected") response in
          match list_collection_names d with
          | inr names =>
              let response := set_collections (take 10 names) response in
              set_database (marked CheckMark " Connected & Working") response
          | inl e =>
              set_database
                (marked WarningSign
                   (" Connected but Error: " +:+ PyStr.take 50 (exn_str e))) response
          end
      end
  | None =>
      set_database (marked WarningSign " Available but not initialized") response
  end.

(** No character of the text is white space. *)
Definition no_space (s : string) : bool :=
  forallb (fun c => negb (PyStr.isspace c)) (list_ascii_of_string s).

(** What a rejection reports, for a schema with the given constrained
    fields: at least one error, and errors whose fields are taken from
    the schema's fields in their order, none of them twice. *)
Definition reports (fields : list string) (errors : list ValidationError) : Prop :=
  errors <> []
  /\ sublist (loc <$> errors) fields
  /\ NoDup (loc <$> errors)
  /\ length errors <= length fields.

(** * Properties *)

(** ** Strings *)

Lemma falsy_empty (s : string) : PyStr.falsy s = true <-> s = "".
Proof. destruct s; simpl; split; congruence. Qed.

Lemma falsy_false (s : string) : PyStr.falsy s = false <-> s <> "".
Proof. destruct s; simpl; split; congruence. Qed.

Lemma any_in_video_empty : PyStr.any_in video_keywords "" = false.
Proof. reflexivity. Qed.

Lemma rstrip_all_space (s : string) :
  PyStr.rstrip s = "" <-> PyStr.all_space s = true.
Proof.
  unfold PyStr.all_space.
  induction s as [|c s IH]; simpl.
  - tauto.
  - destruct (PyStr.isspace c) eqn:Hc; simpl.
    + destruct (PyStr.falsy (PyStr.rstrip s)) eqn:Hr.
      * apply falsy_empty in Hr. split; [intros _; tauto | reflexivity].
      * apply falsy_false in Hr. split; [congruence | tauto].
    + split; congruence.
Qed.

Lemma all_space_lstrip (s : string) :
  PyStr.all_space (PyStr.lstrip s) = PyStr.all_space s.
Proof.
  unfold PyStr.all_space.
  induction s as [|c s IH]; simpl.
  - reflexivity.
  - destruct (PyStr.isspace c) eqn:Hc; simpl.
    + exact IH.
    + rewrite Hc. reflexivity.
Qed.

(** Stripping leaves nothing exactly when every character is white
    space (the empty text included). *)
Lemma strip_empty_iff (s : string) :
  PyStr.strip s = "" <-> PyStr.all_space s = true.
Proof.
  unfold PyStr.strip. rewrite rstrip_all_space, all_space_lstrip. tauto.
Qed.

Lemma startswith_app (k b : string) : PyStr.startswith k (k +:+ b) = true.
Proof.
  induction k as [|c k IH]; simpl.
  - reflexivity.
  - rewrite Ascii.eqb_refl. exact IH.
Qed.

Lemma contains_here (k b : string) : PyStr.contains k (k +:+ b) = true.
Proof.
  destruct k as [|c k].
  - destruct b; reflexivity.
  - change (PyStr.startswith (String c k) (String c k +:+ b)
            || PyStr.contains (String c k) (k +:+ b) = true).
    rewrite startswith_app. reflexivity.
Qed.

Lemma contains_later (k a s : string) :
  PyStr.contains k s = true -> PyStr.contains k (a +:+ s) = true.
Proof.
  intros H. induction a as [|c a IH]; simpl.
  - exact H.
  - rewrite IH. apply orb_true_r.
Qed.

(** ** The chatbot *)

Lemma chatbot_keyword_nonempty (ks : list string) (text : string) :
  PyStr.any_in ks "" = false ->
  PyStr.any_in ks (PyStr.lower text) = true ->
  PyStr.falsy text = false.
Proof.
  intros Hks Hin. destruct text as [|c text]; [|reflexivity].
  simpl in Hin. congruence.
Qed.

(** C2: a message whose trimmed, lower-cased text contains one of
    "video", "clip", "reel" gets the caption-offer template for the
    user, whether or not it also contains "channel", "chat" or "room";
    the template contains the user's name. *)
Theorem chatbot_video_first (user message : string) :
  PyStr.any_in video_keywords (PyStr.lower (PyStr.strip message)) = true ->
  flavored_reply user (PyStr.strip message) = video_template user
  /\ chatbot (BotMessage.mk user message)
      = inr (mkBotResponse (video_template user))
  /\ PyStr.contains user (video_template user) = true.
Proof.
  intros HA.
  assert (Hr : flavored_reply user (PyStr.strip message) = video_template user)
    by (unfold flavored_reply; rewrite HA; reflexivity).
  split_and!.
  - exact Hr.
  - unfold chatbot; cbn [BotMessage.user BotMessage.message].
    rewrite (chatbot_keyword_nonempty video_keywords _ any_in_video_empty HA), Hr.
    reflexivity.
  - unfold video_template. apply (contains_later user "Hey "), contains_here.
Qed.

(** C2 at the message of the specification: it holds "video" and
    "chat", and the answer is the caption offer for Lee. *)
Lemma chatbot_video_first_witness :
  PyStr.any_in channel_keywords (PyStr.lower (PyStr.strip "  video chat please  ")) = true
  /\ chatbot (BotMessage.mk "Lee" "  video chat please  ")
     = inr (mkBotResponse
         "Hey Lee! That sounds like a great video idea. Want me to draft a catchy caption?")
  /\ PyStr.contains "Lee" (video_template "Lee") = true.
Proof.
  split; [reflexivity|].
  exact (proj2 (chatbot_video_first "Lee" "  video chat please  " eq_refl)).
Defined.

Lemma chatbot_rejects_blank_at (msg : BotMessage.t) :
  PyStr.strip (BotMessage.message msg) = "" ->
  chatbot msg = inl (mkHTTPException 400 "Empty message").
Proof. intros Hs. unfold chatbot. rewrite Hs. reflexivity. Qed.

(** C4: a message that is empty after trimming is answered with the
    400 "Empty message" error, at the handler and at the route; no reply
    is produced. *)
Theorem chatbot_rejects_blank (msg : BotMessage.t) :
  PyStr.strip (BotMessage.message msg) = "" ->
  chatbot msg = inl (mkHTTPException 400 "Empty message")
  /\ forall payload, BotMessage.validate payload = inr msg ->
       post_api_bot payload = HTTPError (mkHTTPException 400 "Empty message").
Proof.
  intros Hs.
  pose proof (chatbot_rejects_blank_at msg Hs) as Hc.
  split; [exact Hc|].
  intros payload Hv. unfold post_api_bot. rewrite Hv, Hc. reflexivity.
Qed.

Lemma chatbot_rejects_blank_witness :
  chatbot (BotMessage.mk "Ana" "  ") = inl (mkHTTPException 400 "Empty message")
  /\ post_api_bot (BotMessage.mkInput (Some "Ana") (Some "  "))
     = HTTPError (mkHTTPException 400 "Empty message").
Proof.
  destruct (chatbot_rejects_blank (BotMessage.mk "Ana" "  ") eq_refl) as [H1 H2].
  split; [exact H1|].
  exact (H2 (BotMessage.mkInput (Some "Ana") (Some "  ")) eq_refl).
Defined.

(** C7: for a message whose trimmed text contains no keyword of either
    list, the reply is the generic template, which holds the trimmed
    text as it was written and the user's name; the handler returns it
    whenever the trimmed text is not empty. *)
Theorem chatbot_generic_echo (user message : string) :
  PyStr.any_in video_keywords (PyStr.lower (PyStr.strip message)) = false ->
  PyStr.any_in channel_keywords (PyStr.lower (PyStr.strip message)) = false ->
  flavored_reply user (PyStr.strip message)
    = generic_template user (PyStr.strip message)
  /\ PyStr.contains (PyStr.strip message)
       (generic_template user (PyStr.strip message)) = true
  /\ PyStr.contains user (generic_template user (PyStr.strip message)) = true
  /\ (PyStr.strip message <> "" ->
      chatbot (BotMessage.mk user message)
        = inr (mkBotResponse (generic_template user (PyStr.strip message)))).
Proof.
  intros HA HB.
  assert (Hr : flavored_reply user (PyStr.strip message)
               = generic_template user (PyStr.strip message))
    by (unfold flavored_reply; rewrite HA, HB; reflexivity).
  split_and!.
  - exact Hr.
  - unfold generic_template.
    apply (contains_later _ "Hi "), contains_later, (contains_later _ ", I hear you: '").
    apply contains_here.
  - unfold generic_template. apply (contains_later _ "Hi "), contains_here.
  - intros Hne. unfold chatbot; cbn [BotMessage.user BotMessage.message].
    apply falsy_false in Hne. rewrite Hne, Hr. reflexivity.
Qed.

Lemma chatbot_generic_echo_witness :
  flavored_reply "Sam" "What's up"
    = "Hi Sam, I hear you: 'What's up'. How can I help further?"
  /\ chatbot (BotMessage.mk "Sam" "What's up")
      = inr (mkBotResponse "Hi Sam, I hear you: 'What's up'. How can I help further?").
Proof.
  destruct (chatbot_generic_echo "Sam" "What's up" eq_refl eq_refl) as (Hr & _ & _ & Hc).
  split; [exact Hr|].
  apply Hc. simpl. discriminate.
Defined.

(** ** Field constraints *)

Lemma str_field_located {name lo hi s} : located name (str_field name lo hi s).
Proof.
  intros e. unfold str_field. repeat case_match; intros; simplify_eq; reflexivity.
Qed.

Lemma url_field_located `{HttpUrl} {name s} : located name (url_field name s).
Proof.
  intros e. unfold url_field. case_match; intros; simplify_eq; reflexivity.
Qed.

Lemma int_field_located {name ge z} : located name (int_field name ge z).
Proof.
  intros e. unfold int_field. case_match; intros; simplify_eq; reflexivity.
Qed.

Lemma any_field_located {A : Type} {name} {a : A} : located name (any_field a).
Proof. intros e; discriminate. Qed.

Lemma required_located {A B : Type} {name} {check : A -> field_result B} {given} :
  (forall a, located name (check a)) -> located name (required name check given).
Proof.
  intros Hc e. destruct given as [a|]; simpl.
  - apply Hc.
  - intros; simplify_eq; reflexivity.
Qed.

Lemma optional_located {A B : Type} {name} {check : A -> field_result B} {given} :
  (forall a, located name (check a)) -> located name (optional check given).
Proof.
  intros Hc e. destruct given as [a|]; simpl; [|discriminate].
  destruct (check a) eqn:Hca; intros; simplify_eq. eapply Hc; eassumption.
Qed.

Lemma defaulted_located {A B : Type} {name} {default : B}
    {check : A -> field_result B} {given} :
  (forall a, located name (check a)) -> located name (defaulted default check given).
Proof.
  intros Hc e. destruct given as [a|]; simpl; [apply Hc | discriminate].
Qed.

Lemma no_error_elsewhere {A : Type} (name other : string) (r : field_result A) :
  located other r -> other <> name ->
  existsb (at_loc name) (errors_of r) = false.
Proof.
  intros Hl Hne. destruct r as [e|a]; simpl; [|reflexivity].
  unfold at_loc. rewrite (Hl e eq_refl).
  apply orb_false_iff; split; [|reflexivity].
  apply String.eqb_neq. exact Hne.
Qed.

Lemma error_here {A : Type} (name : string) (r : field_result A) :
  located name r ->
  existsb (at_loc name) (errors_of r) = true <-> exists e, r = inl e.
Proof.
  intros Hl. destruct r as [e|a]; simpl.
  - unfold at_loc. rewrite (Hl e eq_refl), String.eqb_refl. simpl.
    split; eauto.
  - split; [discriminate | intros [e He]; discriminate].
Qed.

(** A length-bounded text field fails exactly outside its bounds. *)
Lemma str_field_fails (name : string) (lo hi : nat) (s : string) :
  (exists e, str_field name (Some lo) (Some hi) s = inl e)
  <-> ~ (lo <= String.length s <= hi).
Proof.
  unfold str_field.
  destruct (Nat.ltb_spec (String.length s) lo);
    [|destruct (Nat.ltb_spec hi (String.length s))].
  - split; [lia | eauto].
  - split; [lia | eauto].
  - split; [intros [e He]; discriminate | lia].
Qed.

Lemma str_field_passes (name : string) (lo hi : nat) (s : string) :
  str_field name (Some lo) (Some hi) s = inr s
  <-> lo <= String.length s <= hi.
Proof.
  unfold str_field.
  destruct (Nat.ltb_spec (String.length s) lo);
    [|destruct (Nat.ltb_spec hi (String.length s))].
  - split; [discriminate | lia].
  - split; [discriminate | lia].
  - split; [lia | reflexivity].
Qed.

Lemma int_field_fails (name : string) (z : Z) :
  (exists e, int_field name 0 z = inl e) <-> (z < 0)%Z.
Proof.
  unfold int_field. destruct (Z.ltb_spec z 0).
  - split; eauto.
  - split; [intros [e He]; discriminate | lia].
Qed.

(** The errors a model validator reports are those of its fields. *)
Lemma User_errors `{HttpUrl} (name : string) (i : User.input) :
  has_error_at name (User.validate i)
  = existsb (at_loc name)
      (errors_of (required "username" (str_field "username" (Some 3) (Some 32)) (User.in_username i))
       ++ errors_of (optional (str_field "display_name" None (Some 64)) (User.in_display_name i))
       ++ errors_of (optional (url_field "avatar_url") (User.in_avatar_url i))
       ++ errors_of (optional (str_field "bio" None (Some 280)) (User.in_bio i))
       ++ errors_of (defaulted true any_field (User.in_is_active i))).
Proof. unfold User.validate. repeat case_match; reflexivity. Qed.

Lemma Channel_errors (name : string) (i : Channel.input) :
  has_error_at name (Channel.validate i)
  = existsb (at_loc name)
      (errors_of (required "name" (str_field "name" (Some 2) (Some 64)) (Channel.in_name i))
       ++ errors_of (optional (str_field "topic" None (Some 140)) (Channel.in_topic i))
       ++ errors_of (defaulted false any_field (Channel.in_is_private i))).
Proof. unfold Channel.validate. repeat case_match; reflexivity. Qed.

Lemma Message_errors (name : string) (i : Message.input) :
  has_error_at name (Message.validate i)
  = existsb (at_loc name)
      (errors_of (required "channel_id" (str_field "channel_id" None None) (Message.in_channel_id i))
       ++ errors_of (required "author" (str_field "author" (Some 3) (Some 32)) (Message.in_author i))
       ++ errors_of (required "content" (str_field "content" (Some 1) (Some 4000)) (Message.in_content i))).
Proof. unfold Message.validate. repeat case_match; reflexivity. Qed.

Lemma Video_errors `{HttpUrl} (name : string) (i : Video.input) :
  has_error_at name (Video.validate i)
  = existsb (at_loc name)
      (errors_of (required "author" (str_field "author" (Some 3) (Some 32)) (Video.in_author i))
       ++ errors_of (optional (str_field "caption" None (Some 300)) (Video.in_caption i))
       ++ errors_of (required "video_url" (url_field "video_url") (Video.in_video_url i))
       ++ errors_of (optional (url_field "thumbnail_url") (Video.in_thumbnail_url i))
       ++ errors_of (defaulted 0%Z (int_field "likes" 0) (Video.in_likes i))
       ++ errors_of (defaulted [] any_field (Video.in_tags i))).
Proof. unfold Video.validate. repeat case_match; reflexivity. Qed.

#[local] Arguments str_field : simpl never.

Ltac located :=
  repeat first
    [ apply required_located; intros
    | apply optional_located; intros
    | apply defaulted_located; intros
    | apply str_field_located
    | apply url_field_located
    | apply int_field_located
    | apply any_field_located ].

Lemma no_error_unchecked {A : Type} (name : string) (default : A) (given : option A) :
  existsb (at_loc name) (errors_of (defaulted default any_field given)) = false.
Proof. destruct given; reflexivity. Qed.

(** Drops, from the errors looked up at field [name], those of the
    validators of the other fields. *)
Ltac drop_others name :=
  rewrite ?no_error_unchecked;
  repeat match goal with
  | |- context [existsb (at_loc name) (errors_of ?r)] =>
      rewrite (no_error_elsewhere name _ r ltac:(located) ltac:(discriminate))
  end.

(** C6: the length bounds of [username] (3..32), of a channel's [name]
    (2..64) and of [author] (3..32) are inclusive at both ends: a payload
    has a validation error at the field exactly when the length is
    outside the bounds, and a payload that is otherwise valid is accepted
    exactly when the length is inside them (the accepted video holds its
    URL in normal form). *)
Theorem length_bounds_inclusive `{HttpUrl} (s : string) :
  let n := String.length s in
  (forall i, User.in_username i = Some s ->
     (has_error_at "username" (User.validate i) = true <-> ~ (3 <= n <= 32)))
  /\ (User.validate (User.mkInput (Some s) None None None None)
        = inr (User.mk s None None None true) <-> 3 <= n <= 32)
  /\ (forall i, Channel.in_name i = Some s ->
     (has_error_at "name" (Channel.validate i) = true <-> ~ (2 <= n <= 64)))
  /\ (Channel.validate (Channel.mkInput (Some s) None None)
        = inr (Channel.mk s None false) <-> 2 <= n <= 64)
  /\ (forall i, Message.in_author i = Some s ->
     (has_error_at "author" (Message.validate i) = true <-> ~ (3 <= n <= 32)))
  /\ (forall channel_id content, 1 <= String.length content <= 4000 ->
     (Message.validate (Message.mkInput (Some channel_id) (Some s) (Some content))
        = inr (Message.mk channel_id s content) <-> 3 <= n <= 32))
  /\ (forall i, Video.in_author i = Some s ->
     (has_error_at "author" (Video.validate i) = true <-> ~ (3 <= n <= 32)))
  /\ (forall given url, parse_http_url given = Some url ->
     (Video.validate (Video.mkInput (Some s) None (Some given) None None None)
        = inr (Video.mk s None url None 0 []) <-> 3 <= n <= 32)).
Proof.
  intros n; subst n. split_and!.
  - intros i Hs. rewrite User_errors, !existsb_app, Hs.
    drop_others "username".
    rewrite !orb_false_r, (error_here "username") by located.
    apply str_field_fails.
  - unfold User.validate; simpl. rewrite <- (str_field_passes "username").
    destruct (str_field _ _ _ s); split; congruence.
  - intros i Hs. rewrite Channel_errors, !existsb_app, Hs.
    drop_others "name".
    rewrite !orb_false_r, (error_here "name") by located.
    apply str_field_fails.
  - unfold Channel.validate; simpl. rewrite <- (str_field_passes "name").
    destruct (str_field _ _ _ s); split; congruence.
  - intros i Hs. rewrite Message_errors, !existsb_app, Hs.
    drop_others "author".
    rewrite orb_false_l, !orb_false_r, (error_here "author") by located.
    apply str_field_fails.
  - intros channel_id content Hc. unfold Message.validate; simpl.
    apply (str_field_passes "content") in Hc. rewrite Hc.
    rewrite <- (str_field_passes "author").
    change (str_field "channel_id" None None channel_id) with (@inr ValidationError _ channel_id).
    destruct (str_field _ _ _ s); split; congruence.
  - intros i Hs. rewrite Video_errors, !existsb_app, Hs.
    drop_others "author".
    rewrite !orb_false_r, (error_here "author") by located.
    apply str_field_fails.
  - intros given url Hu. unfold Video.validate, url_field; simpl. rewrite Hu.
    rewrite <- (str_field_passes "author").
    destruct (str_field _ _ _ s); split; congruence.
Qed.

Lemma length_bounds_inclusive_witness :
  User.validate (H := scheme_only) (User.mkInput (Some "abc") None None None None)
    = inr (User.mk "abc" None None None true)
  /\ has_error_at "username"
       (User.validate (H := scheme_only) (User.mkInput (Some "ab") None None None None))
     = true
  /\ Message.validate (Message.mkInput (Some "c1") (Some "abcdefghijklmnopqrstuvwxyz012345") (Some "hi"))
     = inr (Message.mk "c1" "abcdefghijklmnopqrstuvwxyz012345" "hi")
  /\ has_error_at "author"
       (Message.validate (Message.mkInput (Some "c1") (Some "abcdefghijklmnopqrstuvwxyz0123456") (Some "hi")))
     = true
  /\ Video.validate (H := scheme_only)
       (Video.mkInput (Some "abc") None (Some "https://v.example/1.mp4") None None None)
     = inr (Video.mk "abc" None "https://v.example/1.mp4" None 0 [])
  /\ Video.validate (H := scheme_only)
       (Video.mkInput (Some "abc") None (Some "https://v.example") None None None)
     = inr (Video.mk "abc" None "https://v.example/" None 0 []).
Proof.
  destruct (@length_bounds_inclusive scheme_only "abc") as (_ & Hu3 & _ & _ & _ & _ & _ & Hv3).
  destruct (@length_bounds_inclusive scheme_only "ab") as (Hu2 & _).
  destruct (@length_bounds_inclusive scheme_only "abcdefghijklmnopqrstuvwxyz012345")
    as (_ & _ & _ & _ & _ & Hm32 & _).
  destruct (@length_bounds_inclusive scheme_only "abcdefghijklmnopqrstuvwxyz0123456")
    as (_ & _ & _ & _ & Hm33 & _).
  split_and!.
  - apply Hu3. simpl. lia.
  - apply (Hu2 (User.mkInput (Some "ab") None None None None) eq_refl). simpl. lia.
  - apply (Hm32 "c1" "hi"); simpl; lia.
  - apply (Hm33 (Message.mkInput (Some "c1") (Some "abcdefghijklmnopqrstuvwxyz0123456") (Some "hi"))
             eq_refl).
    simpl. lia.
  - apply (Hv3 "https://v.example/1.mp4" "https://v.example/1.mp4" eq_refl). simpl. lia.
  - apply (Hv3 "https://v.example" "https://v.example/" eq_refl). simpl. lia.
Defined.

(** C8: a video payload with [likes = -1] has a validation error at
    [likes]; more generally a given [likes] is refused exactly when it is
    negative, with no upper bound; an absent [likes] is never an error,
    and an otherwise valid payload is accepted with [likes = 0] both when
    0 is given and when the field is absent. *)
Theorem likes_lower_bound `{HttpUrl} (i : Video.input) :
  (Video.in_likes i = Some (-1)%Z -> has_error_at "likes" (Video.validate i) = true)
  /\ (forall z, Video.in_likes i = Some z ->
        (has_error_at "likes" (Video.validate i) = true <-> (z < 0)%Z))
  /\ (Video.in_likes i = None -> has_error_at "likes" (Video.validate i) = false)
  /\ (forall v likes,
        Video.validate i = inr v -> likes = None \/ likes = Some 0%Z ->
        Video.validate
          (Video.mkInput (Video.in_author i) (Video.in_caption i) (Video.in_video_url i)
             (Video.in_thumbnail_url i) likes (Video.in_tags i))
        = inr (Video.mk (Video.author v) (Video.caption v) (Video.video_url v)
                 (Video.thumbnail_url v) 0 (Video.tags v))).
Proof.
  assert (Hz : forall z, Video.in_likes i = Some z ->
            (has_error_at "likes" (Video.validate i) = true <-> (z < 0)%Z)).
  { intros z Hl. rewrite Video_errors, !existsb_app, Hl.
    drop_others "likes". rewrite !orb_false_l, !orb_false_r.
    rewrite (error_here "likes") by located. apply int_field_fails. }
  split_and!.
  - intros Hl. apply (Hz _ Hl). lia.
  - exact Hz.
  - intros Hl. rewrite Video_errors, !existsb_app, Hl.
    drop_others "likes". reflexivity.
  - intros v likes Hv Hlikes. unfold Video.validate in *; simpl in *.
    assert (Hl : defaulted 0%Z (int_field "likes" 0) likes = inr 0%Z)
      by (destruct Hlikes; subst; reflexivity).
    rewrite Hl. repeat case_match; simplify_eq; reflexivity.
Qed.

Lemma likes_lower_bound_witness :
  has_error_at "likes"
    (Video.validate (H := scheme_only)
       (Video.mkInput (Some "abc") None (Some "https://v.example/1.mp4") None (Some (-1)%Z) None))
  = true
  /\ Video.validate (H := scheme_only)
       (Video.mkInput (Some "abc") None (Some "https://v.example/1.mp4") None None None)
     = inr (Video.mk "abc" None "https://v.example/1.mp4" None 0 [])
  /\ Video.validate (H := scheme_only)
       (Video.mkInput (Some "abc") None (Some "https://v.example/1.mp4") None (Some 0%Z) None)
     = inr (Video.mk "abc" None "https://v.example/1.mp4" None 0 []).
Proof.
  split_and!.
  - apply (@likes_lower_bound scheme_only
             (Video.mkInput (Some "abc") None (Some "https://v.example/1.mp4") None
                (Some (-1)%Z) None)).
    reflexivity.
  - apply (proj2 (proj2 (proj2 (@likes_lower_bound scheme_only
             (Video.mkInput (Some "abc") None (Some "https://v.example/1.mp4") None
                (Some 7%Z) None))))
             (Video.mk "abc" None "https://v.example/1.mp4" None 7 []) None eq_refl).
    left; reflexivity.
  - apply (proj2 (proj2 (proj2 (@likes_lower_bound scheme_only
             (Video.mkInput (Some "abc") None (Some "https://v.example/1.mp4") None
                (Some 7%Z) None))))
             (Video.mk "abc" None "https://v.example/1.mp4" None 7 []) (Some 0%Z) eq_refl).
    right; reflexivity.
Defined.

(** What the schema lets through to the chatbot handler. *)
Lemma BotMessage_validate_ok (payload : BotMessage.input) (msg : BotMessage.t) :
  BotMessage.validate payload = inr msg
  <-> payload = BotMessage.mkInput (Some (BotMessage.user msg)) (Some (BotMessage.message msg))
      /\ 3 <= String.length (BotMessage.user msg) <= 32
      /\ 1 <= String.length (BotMessage.message msg) <= 4000.
Proof.
  destruct payload as [u m], msg as [u' m']. unfold BotMessage.validate; simpl.
  rewrite <- (str_field_passes "user"), <- (str_field_passes "message").
  split.
  - destruct u as [u|], m as [m|]; simpl; try discriminate.
    + destruct (str_field "user" _ _ u) eqn:Hu;
        destruct (str_field "message" _ _ m) eqn:Hm; try discriminate.
      intros Hv; simplify_eq.
      assert (u = u') by (unfold str_field in Hu; repeat case_match; congruence).
      assert (m = m') by (unfold str_field in Hm; repeat case_match; congruence).
      subst. auto.
    + destruct (str_field "user" _ _ u); discriminate.
  - intros (Hp & Hu & Hm). simplify_eq. simpl. rewrite Hu, Hm. reflexivity.
Qed.

Lemma chatbot_error (msg : BotMessage.t) (e : HTTPException) :
  chatbot msg = inl e ->
  e = mkHTTPException 400 "Empty message"
  /\ PyStr.strip (BotMessage.message msg) = "".
Proof.
  unfold chatbot. destruct (PyStr.falsy _) eqn:Hf.
  - intros He; simplify_eq. split; [reflexivity | apply falsy_empty, Hf].
  - discriminate.
Qed.

(** C10: at POST /api/bot an empty [message] is refused by the schema
    (error [string_too_short] at [message], answered before the handler
    runs), and the handler's 400 "Empty message" is the answer exactly
    for the payloads that pass the schema and whose message, which is
    then not empty, consists of white space only. *)
Theorem empty_message_rejected_by_schema (payload : BotMessage.input) :
  (BotMessage.in_message payload = Some "" ->
     exists errors,
       post_api_bot payload = RequestValidationError errors
       /\ mkValidationError "message" string_too_short ∈ errors)
  /\ (post_api_bot payload = HTTPError (mkHTTPException 400 "Empty message")
      <-> exists user message,
            payload = BotMessage.mkInput (Some user) (Some message)
            /\ 3 <= String.length user <= 32
            /\ 1 <= String.length message <= 4000
            /\ message <> ""
            /\ PyStr.all_space message = true).
Proof.
  split.
  - destruct payload as [u m]; simpl. intros ->.
    unfold post_api_bot, BotMessage.validate; simpl.
    change (str_field "message" (Some 1) (Some 4000) "")
      with (@inl ValidationError string (mkValidationError "message" string_too_short)).
    destruct (required "user" _ u) as [e|a]; eexists; (split; [reflexivity|]);
      simpl; set_solver.
  - unfold post_api_bot. split.
    + destruct (BotMessage.validate payload) as [errors|msg] eqn:Hv; [discriminate|].
      destruct (chatbot msg) as [e|r] eqn:Hc; [|discriminate].
      intros _. apply chatbot_error in Hc as [_ Hs].
      apply BotMessage_validate_ok in Hv as (Hp & Hu & Hm).
      exists (BotMessage.user msg), (BotMessage.message msg).
      split_and!; try assumption; try lia.
      * intros Hempty. rewrite Hempty in Hm. simpl in Hm. lia.
      * apply strip_empty_iff, Hs.
    + intros (user & message & Hp & Hu & Hm & _ & Hs).
      assert (Hv : BotMessage.validate payload = inr (BotMessage.mk user message))
        by (apply BotMessage_validate_ok; auto).
      rewrite Hv.
      apply strip_empty_iff in Hs.
      rewrite (chatbot_rejects_blank_at (BotMessage.mk user message) Hs).
      reflexivity.
Qed.

Lemma empty_message_rejected_by_schema_witness :
  (exists errors,
     post_api_bot (BotMessage.mkInput (Some "Ana") (Some "")) = RequestValidationError errors
     /\ mkValidationError "message" string_too_short ∈ errors)
  /\ post_api_bot (BotMessage.mkInput (Some "Ana") (Some "  "))
     = HTTPError (mkHTTPException 400 "Empty message").
Proof.
  split.
  - apply (empty_message_rejected_by_schema (BotMessage.mkInput (Some "Ana") (Some ""))).
    reflexivity.
  - apply (empty_message_rejected_by_schema (BotMessage.mkInput (Some "Ana") (Some "  "))).
    exists "Ana", "  ". simpl. split_and!; try reflexivity; try lia. discriminate.
Defined.

(** ** Shaping listed documents *)

Lemma shape_id_internal_gone (it : document) : shape_id it !! "_id" = None.
Proof.
  unfold shape_id. destruct (it !! "_id") as [oid|] eqn:Hid.
  - rewrite lookup_insert_ne by discriminate. apply lookup_delete_eq.
  - exact Hid.
Qed.

Lemma shape_id_renames (it : document) (oid : value) :
  it !! "_id" = Some oid ->
  shape_id it = <["id" := VStr (py_str oid)]> (delete "_id" it)
  /\ shape_id it !! "id" = Some (VStr (py_str oid)).
Proof.
  intros Hid. unfold shape_id. rewrite Hid. split; [reflexivity|].
  apply lookup_insert_eq.
Qed.

Lemma shape_id_other_field (it : document) (field : string) :
  field <> "_id" -> field <> "id" ->
  shape_id it !! field = it !! field.
Proof.
  intros H1 H2. unfold shape_id. destruct (it !! "_id"); [|reflexivity].
  rewrite lookup_insert_ne by congruence. apply lookup_delete_ne. congruence.
Qed.

(** Whatever the store returns, a shaped document has no internal key
    and is the image of a returned one. *)
Lemma shape_ids_internal_gone (items : list document) :
  Forall (fun out => out !! "_id" = None /\ exists it, it ∈ items /\ out = shape_id it)
         (shape_ids items).
Proof.
  unfold shape_ids. induction items as [|it items IH]; simpl; constructor.
  - split; [apply shape_id_internal_gone|]. exists it. split; [set_solver|reflexivity].
  - eapply Forall_impl; [exact IH|]. simpl.
    intros out [Hout (it' & Hin & ->)]. split; [exact Hout|].
    exists it'. split; [set_solver|reflexivity].
Qed.

Lemma append_length (a b : string) :
  String.length (a +:+ b) = String.length a + String.length b.
Proof.
  induction a as [|c a IH]; [reflexivity|].
  change (S (String.length (a +:+ b)) = S (String.length a + String.length b)).
  congruence.
Qed.

Lemma hex_fixed_length (digits : nat) (n : N) :
  String.length (PyStr.hex_fixed digits n) = digits.
Proof.
  revert n. induction digits as [|d IH]; intros n; simpl.
  - reflexivity.
  - rewrite append_length, IH. simpl. lia.
Qed.

Lemma object_id_str_nonempty (oid : N) : py_str (VObjectId oid) <> "".
Proof.
  intros He. pose proof (hex_fixed_length 24 oid) as Hl.
  change (py_str (VObjectId oid)) with (PyStr.hex_fixed 24 oid) in He.
  rewrite He in Hl. discriminate.
Qed.

(** ** The store *)

Lemma reachable_identified (db : option Store.database) :
  Store.reachable db -> Store.identified db.
Proof.
  induction 1 as [|T HT c data db Hr IH].
  - intros d coll it Hd Hin. unfold Store.empty in Hd. simplify_eq. simpl in Hin.
    rewrite lookup_empty in Hin. simpl in Hin. set_solver.
  - intros d coll it Hd Hin. destruct db as [d0|]; simpl in Hd; [|discriminate].
    simplify_eq. simpl in Hin.
    destruct (decide (c = coll)) as [->|Hne].
    + rewrite lookup_insert_eq in Hin. simpl in Hin.
      apply elem_of_app in Hin as [Hin|Hin].
      * exact (IH d0 coll it eq_refl Hin).
      * apply list_elem_of_singleton in Hin. subst it.
        eexists. apply lookup_insert_eq.
    + rewrite lookup_insert_ne in Hin by exact Hne.
      exact (IH d0 coll it eq_refl Hin).
Qed.

Lemma filter_sound {A : Type} (f : A -> bool) (l : list A) :
  Forall (fun x => x ∈ l /\ f x = true) (List.filter f l).
Proof.
  induction l as [|x l IH]; simpl; [constructor|].
  destruct (f x) eqn:Hx.
  - constructor; [split; [set_solver | exact Hx]|].
    eapply Forall_impl; [exact IH|]. simpl. intros y [? ?]. split; [set_solver|assumption].
  - eapply Forall_impl; [exact IH|]. simpl. intros y [? ?]. split; [set_solver|assumption].
Qed.

(** What a successful read returns: stored documents of the
    collection that match the filter, no more than the limit. *)
Lemma get_documents_sound (collection_name : string) (filter_dict : option query)
    (limit : option nat) (db : option Store.database) (items : list document) :
  Store.get_documents collection_name filter_dict limit db = inr items ->
  exists d, db = Some d
    /\ Forall (fun it => it ∈ default [] (Store.collections d !! collection_name)
                         /\ Store.matches (default ∅ filter_dict) it = true) items
    /\ forall n, limit = Some n -> length items <= n.
Proof.
  unfold Store.get_documents. destruct db as [d|]; [|discriminate].
  intros Hi; simplify_eq. exists d. split; [reflexivity|].
  destruct limit as [n|]; split.
  - apply Forall_take, filter_sound.
  - intros m Hm; simplify_eq. rewrite length_take. lia.
  - apply filter_sound.
  - discriminate.
Qed.

Lemma matches_equals (field : string) (v : value) (it : document) :
  Store.matches {[ field := Equals v ]} it = true -> it !! field = Some v.
Proof.
  unfold Store.matches. rewrite map_to_list_singleton. simpl.
  rewrite andb_true_r. unfold Store.holds.
  destruct (it !! field) as [w|]; [|discriminate].
  intros Hb. destruct w; apply bool_decide_eq_true in Hb; congruence.
Qed.

Lemma matches_empty (it : document) : Store.matches ∅ it = true.
Proof. unfold Store.matches. rewrite map_to_list_empty. reflexivity. Qed.

Lemma filter_all {A : Type} (f : A -> bool) (l : list A) :
  (forall x, f x = true) -> List.filter f l = l.
Proof.
  intros Hf. induction l as [|x l IH]; simpl; [reflexivity|].
  rewrite Hf, IH. reflexivity.
Qed.

(** A shaped document of an identified one is public. *)
Lemma shape_id_public (it : document) (oid : N) :
  it !! "_id" = Some (VObjectId oid) ->
  public (shape_id it).
Proof.
  intros Hid. split; [apply shape_id_internal_gone|].
  exists (py_str (VObjectId oid)). split.
  - apply (shape_id_renames it _ Hid).
  - apply object_id_str_nonempty.
Qed.

Lemma listed_public (collection_name : string) (filter_dict : option query)
    (limit : option nat) (db : option Store.database) (items : list document) :
  Store.reachable db ->
  Store.get_documents collection_name filter_dict limit db = inr items ->
  Forall (fun out =>
            public out
            /\ exists it oid,
                 it !! "_id" = Some (VObjectId oid)
                 /\ out = <["id" := VStr (py_str (VObjectId oid))]> (delete "_id" it))
         (shape_ids items).
Proof.
  intros Hr Hg. apply reachable_identified in Hr.
  apply get_documents_sound in Hg as (d & -> & Hitems & _).
  unfold shape_ids. induction Hitems as [|it items [Hin _] _ IH]; simpl; constructor.
  - destruct (Hr d collection_name it eq_refl Hin) as [oid Hid].
    split; [exact (shape_id_public it oid Hid)|].
    exists it, oid. split; [exact Hid|]. apply (shape_id_renames it _ Hid).
  - exact IH.
Qed.

(** ** The list handlers *)

(** C1: no document that GET /api/users, /api/channels, /api/messages
    or /api/videos returns has the ["_id"] key, whatever the store holds;
    and over a store built by the create operations every returned
    document has under ["id"] a text that is not empty: it is the stored
    document with ["_id"] deleted and the text of its identifier inserted
    under ["id"]. *)
Theorem listed_documents_public :
  (forall (DB : Type) get_documents (db : DB) (items : list document),
     list_users get_documents db = inr items
     \/ list_channels get_documents db = inr items
     \/ (exists channel_id, list_messages get_documents channel_id db = inr items)
     \/ (exists tag, list_videos get_documents tag db = inr items) ->
     Forall (fun out => out !! "_id" = None) items)
  /\ (forall (db : option Store.database) (items : list document),
     Store.reachable db ->
     list_users Store.get_documents db = inr items
     \/ list_channels Store.get_documents db = inr items
     \/ (exists channel_id, list_messages Store.get_documents channel_id db = inr items)
     \/ (exists tag, list_videos Store.get_documents tag db = inr items) ->
     Forall (fun out =>
               public out
               /\ exists it oid,
                    it !! "_id" = Some (VObjectId oid)
                    /\ out = <["id" := VStr (py_str (VObjectId oid))]> (delete "_id" it))
            items).
Proof.
  split.
  - intros DB get_documents db items [H|[H|[[c H]|[g H]]]];
      unfold list_users, list_channels, list_messages, list_videos in H;
      match type of H with
      | match ?call with _ => _ end = _ => destruct call as [e|found] eqn:Hg
      end; simplify_eq;
      (eapply Forall_impl; [apply shape_ids_internal_gone|]); simpl; tauto.
  - intros db items Hr [H|[H|[[c H]|[g H]]]];
      unfold list_users, list_channels, list_messages, list_videos in H;
      match type of H with
      | match ?call with _ => _ end = _ => destruct call as [e|found] eqn:Hg
      end; simplify_eq; eapply listed_public; eassumption.
Qed.

Lemma listed_documents_public_witness :
  list_users Store.get_documents sample_db
    = inr [ <["id" := VStr "000000000000000000000000"]> (model_dump sample_user) ]
  /\ Forall (fun out =>
            public out
            /\ exists it oid,
                 it !! "_id" = Some (VObjectId oid)
                 /\ out = <["id" := VStr (py_str (VObjectId oid))]> (delete "_id" it))
       [ <["id" := VStr "000000000000000000000000"]> (model_dump sample_user) ].
Proof.
  assert (Hl : list_users Store.get_documents sample_db
    = inr [ <["id" := VStr "000000000000000000000000"]> (model_dump sample_user) ])
    by (vm_compute; reflexivity).
  split; [exact Hl|].
  apply (proj2 listed_documents_public sample_db).
  - unfold sample_db. repeat apply Store.reachable_create. apply Store.reachable_empty.
  - left. exact Hl.
Defined.

(** C5: over the store, GET /api/messages with a channel id that is not
    empty returns only documents whose [channel_id] is that id, and at
    most 100 of them; without the parameter it returns the first 100
    stored messages (all of them when there are fewer), whatever their
    channel. *)
Theorem messages_by_channel (db : option Store.database) (items : list document) :
  (forall channel_id,
     channel_id <> "" ->
     list_messages Store.get_documents (Some channel_id) db = inr items ->
     Forall (fun out => out !! "channel_id" = Some (VStr channel_id)) items
     /\ length items <= 100)
  /\ (list_messages Store.get_documents None db = inr items ->
      exists d, db = Some d
        /\ items = shape_ids (take 100 (default [] (Store.collections d !! "message")))
        /\ length items <= 100).
Proof.
  split.
  - intros c Hc. unfold list_messages, messages_filter.
    apply falsy_false in Hc. rewrite Hc.
    destruct (Store.get_documents _ _ _ db) as [e|found] eqn:Hg; [discriminate|].
    intros Hi; simplify_eq.
    apply get_documents_sound in Hg as (d & -> & Hfound & Hlimit).
    split.
    + clear Hlimit.
      unfold shape_ids. induction Hfound as [|it found [_ Hm] _ IH]; simpl; constructor.
      * rewrite shape_id_other_field by discriminate.
        apply matches_equals, Hm.
      * exact IH.
    + unfold shape_ids. rewrite length_map. exact (Hlimit 100 eq_refl).
  - unfold list_messages, messages_filter, Store.get_documents.
    destruct db as [d|]; [|discriminate].
    intros Hi; simplify_eq. exists d. split; [reflexivity|].
    simpl. rewrite (filter_all _ _ matches_empty).
    split; [reflexivity|].
    unfold shape_ids. rewrite length_map, length_take. lia.
Qed.

Lemma messages_by_channel_witness :
  list_messages Store.get_documents (Some "c1") sample_db
    = inr [ <["id" := VStr "000000000000000000000001"]> (model_dump (sample_message "c1")) ]
  /\ Forall (fun out => out !! "channel_id" = Some (VStr "c1"))
       [ <["id" := VStr "000000000000000000000001"]> (model_dump (sample_message "c1")) ]
  /\ length [ <["id" := VStr "000000000000000000000001"]> (model_dump (sample_message "c1")) ]
     <= 100.
Proof.
  assert (Hl : list_messages Store.get_documents (Some "c1") sample_db
    = inr [ <["id" := VStr "000000000000000000000001"]> (model_dump (sample_message "c1")) ])
    by (vm_compute; reflexivity).
  split; [exact Hl|].
  apply (proj1 (messages_by_channel sample_db _) "c1"); [discriminate | exact Hl].
Defined.

(** C9: a query parameter given as the empty text builds the empty
    filter, as an absent one does: with any store, GET /api/messages with
    [channel_id = ""] and GET /api/videos with [tag = ""] make the call
    the request without the parameter makes; over the store they return
    the first 100 stored messages, and the first 50 stored videos. *)
Theorem empty_parameter_is_absent :
  messages_filter (Some "") = ∅
  /\ videos_filter (Some "") = ∅
  /\ (forall (DB : Type) get_documents (db : DB),
        list_messages get_documents (Some "") db = list_messages get_documents None db
        /\ list_videos get_documents (Some "") db = list_videos get_documents None db)
  /\ (forall d,
        list_messages Store.get_documents (Some "") (Some d)
          = inr (shape_ids (take 100 (default [] (Store.collections d !! "message"))))
        /\ list_videos Store.get_documents (Some "") (Some d)
          = inr (shape_ids (take 50 (default [] (Store.collections d !! "video"))))).
Proof.
  split_and!; try reflexivity.
  - intros DB get_documents db. split; reflexivity.
  - intros d. unfold list_messages, list_videos, Store.get_documents; simpl.
    rewrite !(filter_all _ _ matches_empty). split; reflexivity.
Qed.

(** ** Store errors *)

Lemma filler_length (n : nat) : String.length (filler n) = n.
Proof. induction n as [|n IH]; simpl; congruence. Qed.

(** C3, as the code has it: when the store raises an error during a
    create or a list operation, the handler answers with status 500 and
    the whole text of the error as the detail. *)
Theorem store_error_detail {DB : Type}
    (create_document : forall T : Type, BaseModel T -> string -> T -> DB -> (exn + string) * DB)
    (get_documents : string -> option query -> option nat -> DB -> exn + list document)
    (db db' : DB) (e : exn) :
  (forall user, create_document User.t _ "user" user db = (inl e, db') ->
     create_user create_document user db = (inl (mkHTTPException 500 (exn_str e)), db'))
  /\ (forall channel, create_document Channel.t _ "channel" channel db = (inl e, db') ->
     create_channel create_document channel db = (inl (mkHTTPException 500 (exn_str e)), db'))
  /\ (forall message, create_document Message.t _ "message" message db = (inl e, db') ->
     create_message create_document message db = (inl (mkHTTPException 500 (exn_str e)), db'))
  /\ (forall video, create_document Video.t _ "video" video db = (inl e, db') ->
     create_video create_document video db = (inl (mkHTTPException 500 (exn_str e)), db'))
  /\ (get_documents "user" None None db = inl e ->
     list_users get_documents db = inl (mkHTTPException 500 (exn_str e)))
  /\ (get_documents "channel" None None db = inl e ->
     list_channels get_documents db = inl (mkHTTPException 500 (exn_str e)))
  /\ (forall channel_id,
     get_documents "message" (Some (messages_filter channel_id)) (Some 100) db = inl e ->
     list_messages get_documents channel_id db = inl (mkHTTPException 500 (exn_str e)))
  /\ (forall tag,
     get_documents "video" (Some (videos_filter tag)) (Some 50) db = inl e ->
     list_videos get_documents tag db = inl (mkHTTPException 500 (exn_str e))).
Proof.
  unfold create_user, create_channel, create_message, create_video,
    list_users, list_channels, list_messages, list_videos.
  split_and!; intros; repeat match goal with H : _ = _ |- _ => rewrite H end; reflexivity.
Qed.

Lemma store_error_detail_witness :
  create_user (refusing timeout_error) sample_user tt
    = (inl (mkHTTPException 500 timeout_error), tt)
  /\ list_videos (refusing_reads timeout_error) (Some "funny") tt
    = inl (mkHTTPException 500 timeout_error).
Proof.
  pose proof (store_error_detail (refusing timeout_error) (refusing_reads timeout_error)
                tt tt (Exception timeout_error)) as (Hu & _ & _ & _ & _ & _ & _ & Hv).
  split.
  - exact (Hu sample_user eq_refl).
  - exact (Hv (Some "funny") eq_refl).
Defined.

(** C3 fails as stated: a create handler hands the client all 152
    characters of a store error, not a prefix of it, and no bound holds
    for the length of the detail over all store errors. *)
Lemma truncated_detail_counterexample :
  exists d,
    create_user (refusing timeout_error) sample_user tt = (inl (mkHTTPException 500 d), tt)
    /\ d = timeout_error
    /\ String.length d = 152
    /\ PyStr.take 50 timeout_error <> d
    /\ ~ (exists bound, forall msg, exists d',
            create_user (refusing msg) sample_user tt = (inl (mkHTTPException 500 d'), tt)
            /\ String.length d' <= bound).
Proof.
  exists timeout_error.
  split; [reflexivity|]. split; [reflexivity|]. split; [reflexivity|]. split.
  - vm_compute. discriminate.
  - intros [bound Hb]. destruct (Hb (filler (S bound))) as (d' & Hd & Hle).
    unfold create_user, refusing in Hd.
    change (exn_str (Exception (filler (S bound)))) with (filler (S bound)) in Hd.
    assert (Hd' : d' = filler (S bound)) by congruence.
    rewrite Hd', filler_length in Hle. lia.
Qed.

(** * Further properties of the code *)

(** ** The connectivity check *)

Lemma take_length (n : nat) (s : string) :
  String.length (PyStr.take n s) = Nat.min n (String.length s).
Proof.
  revert s. induction n as [|n IH]; intros [|c s]; simpl; try reflexivity.
  rewrite IH. reflexivity.
Qed.

Lemma take_prefix (n : nat) (s : string) :
  exists rest, s = PyStr.take n s +:+ rest.
Proof.
  revert s. induction n as [|n IH]; intros s.
  - exists s. reflexivity.
  - destruct s as [|c s].
    + exists "". reflexivity.
    + destruct (IH s) as [rest Hr]. exists rest.
      change (String c s = String c (PyStr.take n s +:+ rest)). congruence.
Qed.

(** X1: The connectivity check shows at most the first 50 characters of
    an error: when listing the collections raises, and when reading the
    name of the database raises, the [database] text is the fixed label
    followed by a prefix of the error text of at most 50 characters. *)
Theorem connectivity_error_truncated (d : Db) (env_database_url : option string) (e : exn) :
  (raising (db_name d) = false -> list_collection_names d = inl e ->
     exists shown rest,
       database (test_database (Some d) env_database_url)
         = marked WarningSign (" Connected but Error: " +:+ shown)
       /\ exn_str e = shown +:+ rest
       /\ String.length shown = Nat.min 50 (String.length (exn_str e)))
  /\ (db_name d = Raising e ->
     exists shown rest,
       database (test_database (Some d) env_database_url)
         = marked CrossMark (" Error: " +:+ shown)
       /\ exn_str e = shown +:+ rest
       /\ String.length shown = Nat.min 50 (String.length (exn_str e))).
Proof.
  split.
  - intros Hn Hl. destruct (take_prefix 50 (exn_str e)) as [rest Hr].
    exists (PyStr.take 50 (exn_str e)), rest.
    split; [|split; [exact Hr | apply take_length]].
    unfold test_database. rewrite Hl. destruct (db_name d); [reflexivity|discriminate|reflexivity].
  - intros Hn. destruct (take_prefix 50 (exn_str e)) as [rest Hr].
    exists (PyStr.take 50 (exn_str e)), rest.
    split; [|split; [exact Hr | apply take_length]].
    unfold test_database. rewrite Hn. reflexivity.
Qed.

Lemma connectivity_error_truncated_witness :
  exists shown rest,
    database (test_database (Some (mkDb (Having "nova") (inl (Exception timeout_error)))) None)
      = marked WarningSign (" Connected but Error: " +:+ shown)
    /\ timeout_error = shown +:+ rest
    /\ String.length shown = 50.
Proof.
  exact (proj1 (connectivity_error_truncated
                  (mkDb (Having "nova") (inl (Exception timeout_error))) None
                  (Exception timeout_error)) eq_refl eq_refl).
Defined.

(** X2: The connectivity check lists at most ten collection names, the
    first ten the database reports; it lists some only in a response
    whose [database] text is the working one. *)
Theorem connectivity_collections_bounded (db : option Db) (env_database_url : option string) :
  let r := test_database db env_database_url in
  length (collections r) <= 10
  /\ (forall d names,
        db = Some d -> raising (db_name d) = false ->
        list_collection_names d = inr names ->
        collections r = take 10 names)
  /\ (collections r <> [] ->
      database r = marked CheckMark " Connected & Working").
Proof.
  unfold test_database. split_and!.
  - destruct db as [d|]; [|simpl; lia].
    destruct (db_name d), (list_collection_names d); simpl; rewrite ?length_take; lia.
  - intros d names -> Hn Hl. rewrite Hl.
    destruct (db_name d); [reflexivity|discriminate|reflexivity].
  - destruct db as [d|]; [|simpl; congruence].
    destruct (db_name d), (list_collection_names d); simpl; congruence.
Qed.

Lemma connectivity_collections_bounded_witness :
  collections (test_database
     (Some (mkDb NoAttribute
        (inr ["a"; "b"; "c"; "d"; "e"; "f"; "g"; "h"; "i"; "j"; "k"; "l"]))) None)
  = ["a"; "b"; "c"; "d"; "e"; "f"; "g"; "h"; "i"; "j"].
Proof.
  exact (proj1 (proj2 (connectivity_collections_bounded
     (Some (mkDb NoAttribute
        (inr ["a"; "b"; "c"; "d"; "e"; "f"; "g"; "h"; "i"; "j"; "k"; "l"]))) None))
     _ _ eq_refl eq_refl eq_refl).
Defined.

(** X3: In every response of the connectivity check the backend is
    reported running and the initial [database] text, " Not Available"
    after the cross mark, has been replaced; the connection is reported
    "Connected" exactly when there is a database handle whose name can
    be read without an error, and "Not Connected" otherwise. *)
Theorem connectivity_status_consistent (db : option Db) (env_database_url : option string) :
  let r := test_database db env_database_url in
  backend r = marked CheckMark " Running"
  /\ database r <> marked CrossMark " Not Available"
  /\ (connection_status r = plain "Connected"
      <-> exists d, db = Some d /\ raising (db_name d) = false)
  /\ (connection_status r = plain "Connected"
      \/ connection_status r = plain "Not Connected").
Proof.
  unfold test_database. destruct db as [d|].
  - destruct (db_name d) as [|e|v] eqn:Hn, (list_collection_names d) as [e'|names];
      simpl; (split_and!;
        [ reflexivity
        | discriminate
        | split;
          [ intros Hc; try discriminate; exists d; rewrite Hn; split; reflexivity
          | intros (d' & Hd & Hr); simplify_eq; rewrite Hn in Hr; try discriminate; reflexivity ]
        | auto ]).
  - simpl. split_and!; [reflexivity | discriminate | | auto].
    split; [discriminate | intros (d & Hd & _); discriminate].
Qed.

(** ** More on the chatbot *)

Lemma rstrip_idempotent (s : string) : PyStr.rstrip (PyStr.rstrip s) = PyStr.rstrip s.
Proof.
  induction s as [|c s IH]; [reflexivity|].
  cbn [PyStr.rstrip].
  destruct (PyStr.isspace c && PyStr.falsy (PyStr.rstrip s)) eqn:Hc; [reflexivity|].
  cbn [PyStr.rstrip]. rewrite IH, Hc. reflexivity.
Qed.

Lemma lstrip_head (s : string) :
  PyStr.lstrip s = ""
  \/ exists c t, PyStr.lstrip s = String c t /\ PyStr.isspace c = false.
Proof.
  induction s as [|c s IH]; [left; reflexivity|].
  simpl. destruct (PyStr.isspace c) eqn:Hc; [exact IH|].
  right. exists c, s. split; [reflexivity | exact Hc].
Qed.

Lemma strip_idempotent (s : string) : PyStr.strip (PyStr.strip s) = PyStr.strip s.
Proof.
  unfold PyStr.strip. destruct (lstrip_head s) as [He|(c & t & He & Hc)]; rewrite He.
  - reflexivity.
  - assert (Hr : PyStr.rstrip (String c t) = String c (PyStr.rstrip t))
      by (cbn [PyStr.rstrip]; rewrite Hc; reflexivity).
    rewrite Hr. cbn [PyStr.lstrip]. rewrite Hc.
    rewrite <- Hr. apply rstrip_idempotent.
Qed.

(** X4: The handler's answer depends on the message only through its
    trimmed text, and trimming twice is trimming once: a message and its
    trimmed form get the same answer. *)
Theorem chatbot_trim_invariant (user message : string) :
  PyStr.strip (PyStr.strip message) = PyStr.strip message
  /\ chatbot (BotMessage.mk user (PyStr.strip message))
     = chatbot (BotMessage.mk user message).
Proof.
  split; [apply strip_idempotent|].
  unfold chatbot; cbn [BotMessage.user BotMessage.message].
  rewrite strip_idempotent. reflexivity.
Qed.

(** X5: A message with no video keyword and with one of "channel", "chat",
    "room" in its trimmed, lower-cased text gets the channel-help
    template, which contains the user's name. *)
Theorem chatbot_channel_second (user message : string) :
  PyStr.any_in video_keywords (PyStr.lower (PyStr.strip message)) = false ->
  PyStr.any_in channel_keywords (PyStr.lower (PyStr.strip message)) = true ->
  chatbot (BotMessage.mk user message)
    = inr (mkBotResponse (channel_template user))
  /\ PyStr.contains user (channel_template user) = true.
Proof.
  intros HA HB. split.
  - unfold chatbot, flavored_reply; cbn [BotMessage.user BotMessage.message].
    rewrite (chatbot_keyword_nonempty channel_keywords _ eq_refl HB), HA, HB.
    reflexivity.
  - unfold channel_template. apply (contains_later user "Sure "), contains_here.
Qed.

Lemma chatbot_channel_second_witness :
  chatbot (BotMessage.mk "Kim" " New CHAT Room? ")
    = inr (mkBotResponse
        "Sure Kim, I can help you set up a new channel or find trending topics.")
  /\ PyStr.contains "Kim" (channel_template "Kim") = true.
Proof.
  exact (chatbot_channel_second "Kim" " New CHAT Room? " eq_refl eq_refl).
Defined.

Lemma flavored_reply_names_user (user text : string) :
  PyStr.contains user (flavored_reply user text) = true.
Proof.
  unfold flavored_reply, video_template, channel_template, generic_template.
  repeat case_match.
  - apply (contains_later user "Hey "), contains_here.
  - apply (contains_later user "Sure "), contains_here.
  - apply (contains_later user "Hi "), contains_here.
Qed.

(** X6: The handler has two outcomes: the 400 "Empty message" error,
    exactly when the message consists of white space only (the empty
    message included), and otherwise a reply that is one of the three
    templates and contains the user's name. *)
Theorem chatbot_outcomes (msg : BotMessage.t) :
  ((exists e, chatbot msg = inl e)
     <-> PyStr.all_space (BotMessage.message msg) = true)
  /\ (forall e, chatbot msg = inl e -> e = mkHTTPException 400 "Empty message")
  /\ (forall r, chatbot msg = inr r ->
        (reply r = video_template (BotMessage.user msg)
         \/ reply r = channel_template (BotMessage.user msg)
         \/ reply r = generic_template (BotMessage.user msg)
                        (PyStr.strip (BotMessage.message msg)))
        /\ PyStr.contains (BotMessage.user msg) (reply r) = true).
Proof.
  split_and!.
  - rewrite <- strip_empty_iff. split.
    + intros [e He]. apply (chatbot_error msg e He).
    + intros Hs. eexists. apply chatbot_rejects_blank_at, Hs.
  - intros e He. apply (chatbot_error msg e He).
  - unfold chatbot. destruct (PyStr.falsy _); [discriminate|].
    intros r Hr; simplify_eq. cbn [reply]. split.
    + unfold flavored_reply. repeat case_match; auto.
    + apply flavored_reply_names_user.
Qed.

Lemma chatbot_outcomes_witness :
  (exists e, chatbot (BotMessage.mk "Ana" "   ") = inl e)
  /\ PyStr.contains "Sam" "Hi Sam, I hear you: 'What's up'. How can I help further?" = true.
Proof.
  split.
  - apply (proj1 (chatbot_outcomes (BotMessage.mk "Ana" "   "))). reflexivity.
  - apply (proj2 (proj2 (chatbot_outcomes (BotMessage.mk "Sam" "What's up")))
             (mkBotResponse "Hi Sam, I hear you: 'What's up'. How can I help further?")
             eq_refl).
Defined.

(** X7: POST /api/bot answers 200 exactly for the payloads with a user of
    3 to 32 characters and a message of 1 to 4000 characters that is not
    all white space; the reply is then the flavoured reply for the
    trimmed message. *)
Theorem post_api_bot_ok (payload : BotMessage.input) (r : BotResponse) :
  post_api_bot payload = Ok r
  <-> exists user message,
        payload = BotMessage.mkInput (Some user) (Some message)
        /\ 3 <= String.length user <= 32
        /\ 1 <= String.length message <= 4000
        /\ PyStr.all_space message = false
        /\ r = mkBotResponse (flavored_reply user (PyStr.strip message)).
Proof.
  unfold post_api_bot. split.
  - destruct (BotMessage.validate payload) as [errors|msg] eqn:Hv; [discriminate|].
    apply BotMessage_validate_ok in Hv as (Hp & Hu & Hm).
    unfold chatbot. destruct (PyStr.falsy _) eqn:Hf; [discriminate|].
    intros Hr; simplify_eq.
    exists (BotMessage.user msg), (BotMessage.message msg).
    split_and!; try assumption; try lia; try reflexivity.
    destruct (PyStr.all_space _) eqn:Hs; [|reflexivity].
    apply strip_empty_iff in Hs. rewrite Hs in Hf. discriminate.
  - intros (user & message & Hp & Hu & Hm & Hs & ->).
    assert (Hv : BotMessage.validate payload = inr (BotMessage.mk user message))
      by (apply BotMessage_validate_ok; auto).
    rewrite Hv. unfold chatbot; cbn [BotMessage.user BotMessage.message].
    destruct (PyStr.falsy _) eqn:Hf; [|reflexivity].
    apply falsy_empty, strip_empty_iff in Hf. congruence.
Qed.

Lemma post_api_bot_ok_witness :
  post_api_bot (BotMessage.mkInput (Some "Sam") (Some "What's up"))
  = Ok (mkBotResponse "Hi Sam, I hear you: 'What's up'. How can I help further?").
Proof.
  apply post_api_bot_ok. exists "Sam", "What's up".
  simpl. split_and!; try reflexivity; lia.
Defined.

Lemma append_cons (c : ascii) (a b : string) :
  String c a +:+ b = String c (a +:+ b).
Proof. reflexivity. Qed.

Lemma lower_app (a b : string) :
  PyStr.lower (a +:+ b) = PyStr.lower a +:+ PyStr.lower b.
Proof.
  induction a as [|c a IH]; [reflexivity|].
  rewrite append_cons. cbn [PyStr.lower]. rewrite IH. reflexivity.
Qed.

Lemma isspace_lower_char (c : ascii) :
  PyStr.isspace (PyStr.lower_char c) = PyStr.isspace c.
Proof. destruct c as [[] [] [] [] [] [] [] []]; reflexivity. Qed.

Lemma no_space_lower (s : string) : no_space (PyStr.lower s) = no_space s.
Proof.
  unfold no_space. induction s as [|c s IH]; [reflexivity|].
  cbn [PyStr.lower list_ascii_of_string forallb].
  rewrite isspace_lower_char, IH. reflexivity.
Qed.

Lemma rstrip_keeps_word (w b : string) :
  no_space w = true -> PyStr.rstrip (w +:+ b) = w +:+ PyStr.rstrip b.
Proof.
  unfold no_space. induction w as [|c w IH]; [reflexivity|].
  cbn [list_ascii_of_string forallb]. intros [Hc Hw]%andb_true_iff.
  rewrite !append_cons. cbn [PyStr.rstrip].
  apply negb_true_iff in Hc. rewrite Hc, (IH Hw). reflexivity.
Qed.

Lemma rstrip_app_keep (a t : string) :
  PyStr.falsy (PyStr.rstrip t) = false ->
  PyStr.rstrip (a +:+ t) = a +:+ PyStr.rstrip t.
Proof.
  intros Ht. induction a as [|c a IH]; [reflexivity|].
  rewrite !append_cons. cbn [PyStr.rstrip]. rewrite IH.
  assert (Hf : PyStr.falsy (a +:+ PyStr.rstrip t) = false)
    by (destruct a; [exact Ht | reflexivity]).
  rewrite Hf, andb_false_r. reflexivity.
Qed.

Lemma lstrip_keeps_word (a w b : string) :
  no_space w = true -> w <> "" ->
  exists a', PyStr.lstrip (a +:+ w +:+ b) = a' +:+ w +:+ b.
Proof.
  intros Hw Hne. induction a as [|x a IH].
  - exists "". destruct w as [|y w]; [congruence|].
    unfold no_space in Hw. cbn [list_ascii_of_string forallb] in Hw.
    apply andb_true_iff in Hw as [Hy _]. apply negb_true_iff in Hy.
    change ("" +:+ String y w +:+ b) with (String y (w +:+ b)).
    cbn [PyStr.lstrip]. rewrite Hy. reflexivity.
  - rewrite append_cons. cbn [PyStr.lstrip].
    destruct (PyStr.isspace x); [exact IH|].
    exists (String x a). reflexivity.
Qed.

(** Trimming keeps a word without white space that the text holds. *)
Lemma strip_keeps_word (a w b : string) :
  no_space w = true -> w <> "" ->
  exists a' b', PyStr.strip (a +:+ w +:+ b) = a' +:+ w +:+ b'.
Proof.
  intros Hw Hne. unfold PyStr.strip.
  destruct (lstrip_keeps_word a w b Hw Hne) as [a' Ha]. rewrite Ha.
  exists a', (PyStr.rstrip b).
  rewrite <- (rstrip_keeps_word w b Hw). apply rstrip_app_keep.
  rewrite (rstrip_keeps_word w b Hw). destruct w; [congruence | reflexivity].
Qed.

Lemma any_in_member (k : string) (ks : list string) (s : string) :
  k ∈ ks -> PyStr.contains k s = true -> PyStr.any_in ks s = true.
Proof.
  intros Hk Hc. unfold PyStr.any_in. apply existsb_exists.
  exists k. split; [apply list_elem_of_In, Hk | exact Hc].
Qed.

(** X8: A message that holds "video", "clip" or "reel" anywhere, in any
    mix of upper and lower case and with any text or white space around
    it, gets the caption-offer template. *)
Theorem video_keyword_anywhere (user before word after : string) :
  PyStr.lower word ∈ video_keywords ->
  chatbot (BotMessage.mk user (before +:+ word +:+ after))
    = inr (mkBotResponse (video_template user)).
Proof.
  intros Hk.
  assert (Hw : no_space word = true).
  { rewrite <- no_space_lower.
    unfold video_keywords in Hk. set_unfold.
    destruct Hk as [He|[He|[He|[]]]]; rewrite He; reflexivity. }
  assert (Hne : word <> "").
  { intros Hempty. rewrite Hempty in Hk. unfold video_keywords in Hk. set_unfold.
    destruct Hk as [He|[He|[He|[]]]]; discriminate. }
  destruct (strip_keeps_word before word after Hw Hne) as (a' & b' & Hs).
  assert (HA : PyStr.any_in video_keywords
                 (PyStr.lower (PyStr.strip (before +:+ word +:+ after))) = true).
  { apply (any_in_member (PyStr.lower word)); [exact Hk|].
    rewrite Hs, !lower_app. apply contains_later, contains_here. }
  unfold chatbot, flavored_reply; cbn [BotMessage.user BotMessage.message].
  rewrite (chatbot_keyword_nonempty video_keywords _ eq_refl HA), HA. reflexivity.
Qed.

Lemma video_keyword_anywhere_witness :
  chatbot (BotMessage.mk "Lee" "  my new ReEl, chat about it!  ")
  = inr (mkBotResponse
      "Hey Lee! That sounds like a great video idea. Want me to draft a catchy caption?").
Proof.
  apply (video_keyword_anywhere "Lee" "  my new " "ReEl" ", chat about it!  ").
  vm_compute. set_solver.
Defined.

(** ** What the schemas accept *)

Lemma str_field_inr (name : string) (lo hi : option nat) (s s' : string) :
  str_field name lo hi s = inr s' -> s' = s.
Proof. unfold str_field. repeat case_match; congruence. Qed.

Lemma required_bounded (name : string) (lo hi : nat) (given : option string) (s : string) :
  required name (str_field name (Some lo) (Some hi)) given = inr s
  <-> given = Some s /\ lo <= String.length s <= hi.
Proof.
  destruct given as [s'|]; simpl.
  - split.
    + intros Hf. pose proof (str_field_inr _ _ _ _ _ Hf) as ->.
      split; [reflexivity | apply (str_field_passes name), Hf].
    + intros [Hs Hb]. simplify_eq. apply str_field_passes, Hb.
  - split; [discriminate | intros [? _]; discriminate].
Qed.

Lemma required_free (name : string) (given : option string) (s : string) :
  required name (str_field name None None) given = inr s <-> given = Some s.
Proof.
  destruct given as [s'|]; simpl; [|split; discriminate].
  unfold str_field. split; congruence.
Qed.

Lemma optional_bounded (name : string) (hi : nat) (given o : option string) :
  optional (str_field name None (Some hi)) given = inr o
  <-> o = given /\ forall s, o = Some s -> String.length s <= hi.
Proof.
  destruct given as [s'|]; simpl.
  - unfold str_field. destruct (Nat.ltb_spec hi (String.length s')).
    + split; [discriminate|]. intros [-> Hb]. specialize (Hb s' eq_refl). lia.
    + split.
      * intros Ho; simplify_eq. split; [reflexivity|]. intros s Hs; simplify_eq. lia.
      * intros [-> _]. reflexivity.
  - split.
    + intros Ho; simplify_eq. split; [reflexivity | discriminate].
    + intros [-> _]. reflexivity.
Qed.

Lemma required_url `{HttpUrl} (name : string) (given : option string) (url : string) :
  required name (url_field name) given = inr url
  <-> exists s, given = Some s /\ parse_http_url s = Some url.
Proof.
  destruct given as [s'|]; simpl; unfold url_field.
  - destruct (parse_http_url s') as [u|] eqn:Hu.
    + split; [intros Hs; simplify_eq; eauto | intros (s & Hs & Hp); congruence].
    + split; [discriminate | intros (s & Hs & Hp); congruence].
  - split; [discriminate | intros (s & Hs & _); discriminate].
Qed.

Lemma optional_url `{HttpUrl} (name : string) (given held : option string) :
  optional (url_field name) given = inr held <-> url_given given held.
Proof.
  unfold url_given. destruct given as [s'|]; simpl; unfold url_field.
  - destruct (parse_http_url s') as [u|] eqn:Hu.
    + split; [intros Hs; simplify_eq; eauto | intros (url & Hp & ->); congruence].
    + split; [discriminate | intros (url & Hp & _); discriminate].
  - split; congruence.
Qed.

Lemma defaulted_unchecked {A : Type} (d : A) (given : option A) (v : A) :
  defaulted d any_field given = inr v <-> v = default d given.
Proof. destruct given; simpl; unfold any_field; split; congruence. Qed.

Lemma defaulted_likes (given : option Z) (z : Z) :
  defaulted 0%Z (int_field "likes" 0) given = inr z
  <-> z = default 0%Z given /\ (0 <= z)%Z.
Proof.
  destruct given as [z'|]; simpl.
  - unfold int_field. destruct (Z.ltb_spec z' 0).
    + split; [discriminate | intros [-> ?]; lia].
    + split; [intros Hz; simplify_eq; auto | intros [-> _]; reflexivity].
  - split; [intros Hz; simplify_eq; split; [reflexivity | lia] | intros [-> _]; reflexivity].
Qed.

(** X9: A user payload is accepted, and as the record [u], exactly when
    its username is given and has 3 to 32 characters, the display name
    and the bio, when given, have at most 64 and 280 characters, and the
    avatar URL, when given, is one the parser takes; [u] holds the given
    texts, the avatar URL in its normal form, and [is_active] true when
    it is not given. *)
Theorem User_accepted `{HttpUrl} (i : User.input) (u : User.t) :
  User.validate i = inr u
  <-> (User.in_username i = Some (User.username u)
       /\ 3 <= String.length (User.username u) <= 32)
      /\ (User.display_name u = User.in_display_name i
          /\ forall s, User.display_name u = Some s -> String.length s <= 64)
      /\ url_given (User.in_avatar_url i) (User.avatar_url u)
      /\ (User.bio u = User.in_bio i
          /\ forall s, User.bio u = Some s -> String.length s <= 280)
      /\ User.is_active u = default true (User.in_is_active i).
Proof.
  destruct u as [a b c d e]; cbn [User.username User.display_name User.avatar_url
                                  User.bio User.is_active].
  rewrite <- (required_bounded "username"), <- (optional_bounded "display_name"),
    <- (optional_url "avatar_url"), <- (optional_bounded "bio"),
    <- (defaulted_unchecked true).
  unfold User.validate; cbv zeta.
  destruct (required "username" _ _), (optional (str_field "display_name" _ _) _),
    (optional (url_field "avatar_url") _), (optional (str_field "bio" _ _) _),
    (defaulted true _ _);
    (split; [intros Hv; simplify_eq; auto 10
            | intros (?&?&?&?&?); simplify_eq; reflexivity]).
Qed.

Lemma User_accepted_witness :
  User.validate (H := scheme_only)
    (User.mkInput (Some "nova") (Some "") (Some "http://a.example") None None)
  = inr (User.mk "nova" (Some "") (Some "http://a.example/") None true).
Proof.
  apply (@User_accepted scheme_only).
  unfold url_given; cbn [User.username User.display_name User.avatar_url User.bio
                         User.is_active User.in_username User.in_display_name
                         User.in_avatar_url User.in_bio User.in_is_active].
  split_and!.
  - reflexivity.
  - simpl; lia.
  - simpl; lia.
  - reflexivity.
  - intros s Hs; simplify_eq. simpl; lia.
  - exists "http://a.example/". split; reflexivity.
  - reflexivity.
  - discriminate.
  - reflexivity.
Defined.

(** X10: A channel payload is accepted, and as the record [c], exactly when
    its name is given and has 2 to 64 characters and the topic, when
    given, has at most 140; [is_private] is false when it is not given. *)
Theorem Channel_accepted (i : Channel.input) (c : Channel.t) :
  Channel.validate i = inr c
  <-> (Channel.in_name i = Some (Channel.name c)
       /\ 2 <= String.length (Channel.name c) <= 64)
      /\ (Channel.topic c = Channel.in_topic i
          /\ forall s, Channel.topic c = Some s -> String.length s <= 140)
      /\ Channel.is_private c = default false (Channel.in_is_private i).
Proof.
  destruct c as [a b p]; cbn [Channel.name Channel.topic Channel.is_private].
  rewrite <- (required_bounded "name"), <- (optional_bounded "topic"),
    <- (defaulted_unchecked false).
  unfold Channel.validate; cbv zeta.
  destruct (required "name" _ _), (optional (str_field "topic" _ _) _),
    (defaulted false _ _);
    (split; [intros Hv; simplify_eq; auto 10
            | intros (?&?&?); simplify_eq; reflexivity]).
Qed.

Lemma Channel_accepted_witness :
  Channel.validate (Channel.mkInput (Some "ab") None (Some true))
  = inr (Channel.mk "ab" None true).
Proof.
  apply Channel_accepted. simpl.
  split_and!; try reflexivity; try lia. discriminate.
Defined.

(** X11: A message payload is accepted, and as the record [m], exactly when
    all three fields are given, the author has 3 to 32 characters and
    the content 1 to 4000; the channel id is any text, the empty one
    included. *)
Theorem Message_accepted (i : Message.input) (m : Message.t) :
  Message.validate i = inr m
  <-> Message.in_channel_id i = Some (Message.channel_id m)
      /\ (Message.in_author i = Some (Message.author m)
          /\ 3 <= String.length (Message.author m) <= 32)
      /\ (Message.in_content i = Some (Message.content m)
          /\ 1 <= String.length (Message.content m) <= 4000).
Proof.
  destruct m as [a b c]; cbn [Message.channel_id Message.author Message.content].
  rewrite <- (required_free "channel_id"), <- (required_bounded "author"),
    <- (required_bounded "content").
  unfold Message.validate; cbv zeta.
  destruct (required "channel_id" _ _), (required "author" _ _),
    (required "content" _ _);
    (split; [intros Hv; simplify_eq; auto 10
            | intros (?&?&?); simplify_eq; reflexivity]).
Qed.

Lemma Message_accepted_witness :
  Message.validate (Message.mkInput (Some "") (Some "abc") (Some "x"))
  = inr (Message.mk "" "abc" "x").
Proof.
  apply Message_accepted. simpl. split_and!; try reflexivity; lia.
Defined.

(** X12: A video payload is accepted, and as the record [v], exactly when
    the author is given and has 3 to 32 characters, the video URL is
    given and is one the parser takes, the caption, when given, has at
    most 300 characters, the thumbnail URL, when given, is one the
    parser takes, and the likes are not negative; [v] holds the two URLs
    in their normal form, likes 0 and no tags when they are not given. *)
Theorem Video_accepted `{HttpUrl} (i : Video.input) (v : Video.t) :
  Video.validate i = inr v
  <-> (Video.in_author i = Some (Video.author v)
       /\ 3 <= String.length (Video.author v) <= 32)
      /\ (Video.caption v = Video.in_caption i
          /\ forall s, Video.caption v = Some s -> String.length s <= 300)
      /\ (exists given, Video.in_video_url i = Some given
                       /\ parse_http_url given = Some (Video.video_url v))
      /\ url_given (Video.in_thumbnail_url i) (Video.thumbnail_url v)
      /\ (Video.likes v = default 0%Z (Video.in_likes i) /\ (0 <= Video.likes v)%Z)
      /\ Video.tags v = default [] (Video.in_tags i).
Proof.
  destruct v as [a b c d e f]; cbn [Video.author Video.caption Video.video_url
                                    Video.thumbnail_url Video.likes Video.tags].
  rewrite <- (required_bounded "author"), <- (optional_bounded "caption"),
    <- (required_url "video_url"), <- (optional_url "thumbnail_url"),
    <- defaulted_likes, <- (defaulted_unchecked []).
  unfold Video.validate; cbv zeta.
  destruct (required "author" _ _), (optional (str_field "caption" _ _) _),
    (required "video_url" _ _), (optional (url_field "thumbnail_url") _),
    (defaulted 0%Z _ _), (defaulted [] _ _);
    (split; [intros Hv; simplify_eq; auto 10
            | intros (?&?&?&?&?&?); simplify_eq; reflexivity]).
Qed.

Lemma Video_accepted_witness :
  Video.validate (H := scheme_only)
    (Video.mkInput (Some "abc") None (Some "https://v.example") None
       (Some 12%Z) (Some ["fun"; "cats"]))
  = inr (Video.mk "abc" None "https://v.example/" None 12 ["fun"; "cats"]).
Proof.
  apply (@Video_accepted scheme_only).
  unfold url_given; cbn [Video.author Video.caption Video.video_url Video.thumbnail_url
                         Video.likes Video.tags Video.in_author Video.in_caption
                         Video.in_video_url Video.in_thumbnail_url Video.in_likes
                         Video.in_tags].
  split_and!.
  - reflexivity.
  - simpl; lia.
  - simpl; lia.
  - reflexivity.
  - discriminate.
  - exists "https://v.example". split; reflexivity.
  - reflexivity.
  - reflexivity.
  - lia.
  - reflexivity.
Defined.

Lemma field_locs {A : Type} (name : string) (r : field_result A) :
  located name r -> sublist (loc <$> errors_of r) [name].
Proof.
  intros Hl. destruct r as [e|a]; simpl.
  - rewrite (Hl e eq_refl). apply sublist_skip, sublist_nil.
  - apply sublist_cons, sublist_nil.
Qed.

Lemma reports_of (fields : list string) (errors : list ValidationError) :
  NoDup fields -> errors <> [] -> sublist (loc <$> errors) fields ->
  reports fields errors.
Proof.
  intros Hn He Hs. split_and!; try assumption.
  - eapply sublist_NoDup; eassumption.
  - rewrite <- (length_fmap loc). apply sublist_length, Hs.
Qed.

(** X13: A payload (of well-typed values) that a schema rejects comes
    with at least one error; the fields the errors name are constrained
    fields of the schema, in the order of the schema and none of them
    twice, so there are at most 4 errors for a user, 2 for a channel, 3
    for a message, 5 for a video and 2 for a chatbot message. *)
Theorem rejection_names_a_field `{HttpUrl} :
  (forall i errors, User.validate i = inl errors ->
     reports ["username"; "display_name"; "avatar_url"; "bio"] errors)
  /\ (forall i errors, Channel.validate i = inl errors ->
     reports ["name"; "topic"] errors)
  /\ (forall i errors, Message.validate i = inl errors ->
     reports ["channel_id"; "author"; "content"] errors)
  /\ (forall i errors, Video.validate i = inl errors ->
     reports ["author"; "caption"; "video_url"; "thumbnail_url"; "likes"] errors)
  /\ (forall i errors, BotMessage.validate i = inl errors ->
     reports ["user"; "message"] errors).
Proof.
  split_and!; intros i errors Hv; apply reports_of;
    try (apply (bool_decide_unpack _); vm_compute; exact I).
  - revert Hv. unfold User.validate; cbv zeta. destruct (User.in_is_active i); simpl.
    all: destruct (required "username" _ _), (optional (str_field "display_name" _ _) _),
      (optional (url_field "avatar_url") _), (optional (str_field "bio" _ _) _);
      intros Hv; simplify_eq; simpl; discriminate.
  - assert (He : errors =
      errors_of (required "username" (str_field "username" (Some 3) (Some 32)) (User.in_username i))
      ++ errors_of (optional (str_field "display_name" None (Some 64)) (User.in_display_name i))
      ++ errors_of (optional (url_field "avatar_url") (User.in_avatar_url i))
      ++ errors_of (optional (str_field "bio" None (Some 280)) (User.in_bio i))).
    { revert Hv. unfold User.validate; cbv zeta. destruct (User.in_is_active i); simpl.
      all: destruct (required "username" _ _), (optional (str_field "display_name" _ _) _),
        (optional (url_field "avatar_url") _), (optional (str_field "bio" _ _) _);
        intros Hv; simplify_eq; reflexivity. }
    rewrite He, !fmap_app.
    apply (sublist_app _ [_]); [apply field_locs; located|].
    apply (sublist_app _ [_]); [apply field_locs; located|].
    apply (sublist_app _ [_]); [apply field_locs; located|].
    apply field_locs; located.
  - revert Hv. unfold Channel.validate; cbv zeta. destruct (Channel.in_is_private i); simpl.
    all: destruct (required "name" _ _), (optional (str_field "topic" _ _) _);
      intros Hv; simplify_eq; simpl; discriminate.
  - assert (He : errors =
      errors_of (required "name" (str_field "name" (Some 2) (Some 64)) (Channel.in_name i))
      ++ errors_of (optional (str_field "topic" None (Some 140)) (Channel.in_topic i))).
    { revert Hv. unfold Channel.validate; cbv zeta. destruct (Channel.in_is_private i); simpl.
      all: destruct (required "name" _ _), (optional (str_field "topic" _ _) _);
        intros Hv; simplify_eq; reflexivity. }
    rewrite He, !fmap_app.
    apply (sublist_app _ [_]); [apply field_locs; located|].
    apply field_locs; located.
  - revert Hv. unfold Message.validate; cbv zeta.
    destruct (required "channel_id" _ _), (required "author" _ _), (required "content" _ _);
      intros Hv; simplify_eq; simpl; discriminate.
  - assert (He : errors =
      errors_of (required "channel_id" (str_field "channel_id" None None) (Message.in_channel_id i))
      ++ errors_of (required "author" (str_field "author" (Some 3) (Some 32)) (Message.in_author i))
      ++ errors_of (required "content" (str_field "content" (Some 1) (Some 4000)) (Message.in_content i))).
    { revert Hv. unfold Message.validate; cbv zeta.
      destruct (required "channel_id" _ _), (required "author" _ _), (required "content" _ _);
        intros Hv; simplify_eq; reflexivity. }
    rewrite He, !fmap_app.
    apply (sublist_app _ [_]); [apply field_locs; located|].
    apply (sublist_app _ [_]); [apply field_locs; located|].
    apply field_locs; located.
  - revert Hv. unfold Video.validate; cbv zeta. destruct (Video.in_tags i); simpl.
    all: destruct (required "author" _ _), (optional (str_field "caption" _ _) _),
      (required "video_url" _ _), (optional (url_field "thumbnail_url") _),
      (defaulted 0%Z _ _);
      intros Hv; simplify_eq; simpl; discriminate.
  - assert (He : errors =
      errors_of (required "author" (str_field "author" (Some 3) (Some 32)) (Video.in_author i))
      ++ errors_of (optional (str_field "caption" None (Some 300)) (Video.in_caption i))
      ++ errors_of (required "video_url" (url_field "video_url") (Video.in_video_url i))
      ++ errors_of (optional (url_field "thumbnail_url") (Video.in_thumbnail_url i))
      ++ errors_of (defaulted 0%Z (int_field "likes" 0) (Video.in_likes i))).
    { revert Hv. unfold Video.validate; cbv zeta. destruct (Video.in_tags i); simpl.
      all: destruct (required "author" _ _), (optional (str_field "caption" _ _) _),
        (required "video_url" _ _), (optional (url_field "thumbnail_url") _),
        (defaulted 0%Z _ _);
        intros Hv; simplify_eq; rewrite ?app_nil_r; reflexivity. }
    rewrite He, !fmap_app.
    apply (sublist_app _ [_]); [apply field_locs; located|].
    apply (sublist_app _ [_]); [apply field_locs; located|].
    apply (sublist_app _ [_]); [apply field_locs; located|].
    apply (sublist_app _ [_]); [apply field_locs; located|].
    apply field_locs; located.
  - revert Hv. unfold BotMessage.validate; cbv zeta.
    destruct (required "user" _ _), (required "message" _ _);
      intros Hv; simplify_eq; simpl; discriminate.
  - assert (He : errors =
      errors_of (required "user" (str_field "user" (Some 3) (Some 32)) (BotMessage.in_user i))
      ++ errors_of (required "message" (str_field "message" (Some 1) (Some 4000)) (BotMessage.in_message i))).
    { revert Hv. unfold BotMessage.validate; cbv zeta.
      destruct (required "user" _ _), (required "message" _ _);
        intros Hv; simplify_eq; reflexivity. }
    rewrite He, !fmap_app.
    apply (sublist_app _ [_]); [apply field_locs; located|].
    apply field_locs; located.
Qed.

Lemma rejection_names_a_field_witness :
  exists errors,
    Message.validate (Message.mkInput None (Some "ab") (Some "hello")) = inl errors
    /\ reports ["channel_id"; "author"; "content"] errors.
Proof.
  eexists. split.
  - reflexivity.
  - apply (proj1 (proj2 (proj2 (@rejection_names_a_field scheme_only)))
             (Message.mkInput None (Some "ab") (Some "hello"))).
    reflexivity.
Defined.

(** ** Query filters and shaping *)

(** X14: The filter of a list request is empty exactly when the parameter is
    absent or the empty text; otherwise it has the one entry for the
    given value: equality on [channel_id] for messages, membership of
    the tag in [tags] for videos. *)
Theorem filter_of_parameter (parameter : option string) :
  (messages_filter parameter = ∅ <-> parameter = None \/ parameter = Some "")
  /\ (videos_filter parameter = ∅ <-> parameter = None \/ parameter = Some "")
  /\ (forall s, parameter = Some s -> s <> "" ->
        messages_filter parameter = {[ "channel_id" := Equals (VStr s) ]}
        /\ videos_filter parameter = {[ "tags" := In_ [VStr s] ]}).
Proof.
  unfold messages_filter, videos_filter. destruct parameter as [[|c s]|]; simpl.
  - split_and!; [split; auto | split; auto |]. intros s Hs Hne. simplify_eq.
  - split_and!.
    + split; [intros He; exfalso; exact (map_non_empty_singleton _ _ He)|].
      intros [?|?]; discriminate.
    + split; [intros He; exfalso; exact (map_non_empty_singleton _ _ He)|].
      intros [?|?]; discriminate.
    + intros s' Hs _. simplify_eq. split; reflexivity.
  - split_and!; [split; auto | split; auto |]. intros s Hs. discriminate.
Qed.

Lemma filter_of_parameter_witness :
  messages_filter (Some "c1") = {[ "channel_id" := Equals (VStr "c1") ]}
  /\ videos_filter (Some "c1") = {[ "tags" := In_ [VStr "c1"] ]}.
Proof.
  apply (proj2 (proj2 (filter_of_parameter (Some "c1"))) "c1"); [reflexivity | discriminate].
Defined.

Lemma shape_id_without (it : document) :
  it !! "_id" = None -> shape_id it = it.
Proof. intros Hid. unfold shape_id. rewrite Hid. reflexivity. Qed.

(** X15: Shaping leaves a document without ["_id"] as it is (it gets no
    ["id"]), and in any document it changes no field other than ["_id"]
    and ["id"]. *)
Theorem shape_id_frame (it : document) :
  (it !! "_id" = None -> shape_id it = it)
  /\ (forall field, field <> "_id" -> field <> "id" ->
        shape_id it !! field = it !! field).
Proof.
  split.
  - intros Hid. unfold shape_id. rewrite Hid. reflexivity.
  - intros field. apply shape_id_other_field.
Qed.

Lemma shape_id_frame_witness :
  shape_id {[ "name" := VStr "general" ]} = {[ "name" := VStr "general" ]}
  /\ shape_id (<["_id" := VObjectId 7]> {[ "name" := VStr "general" ]}) !! "name"
     = (<["_id" := VObjectId 7]> {[ "name" := VStr "general" ]} : document) !! "name".
Proof.
  split.
  - apply (shape_id_frame {[ "name" := VStr "general" ]}). reflexivity.
  - apply (shape_id_frame (<["_id" := VObjectId 7]> {[ "name" := VStr "general" ]}));
      discriminate.
Defined.

(** X16: When a document has an ["_id"], the shaped document holds the text
    of that identifier under ["id"], in place of any ["id"] field the
    stored document had, and its keys are those of the stored document
    without ["_id"] and with ["id"]. *)
Theorem shape_id_overwrites (it : document) (oid : value) :
  it !! "_id" = Some oid ->
  shape_id it !! "id" = Some (VStr (py_str oid))
  /\ dom (shape_id it) = {[ "id" ]} ∪ (dom it ∖ {[ "_id" ]}).
Proof.
  intros Hid. destruct (shape_id_renames it oid Hid) as [Hs Hl].
  split; [exact Hl|].
  rewrite Hs, dom_insert_L, dom_delete_L. reflexivity.
Qed.

Lemma shape_id_overwrites_witness :
  shape_id (<["_id" := VInt 5]> {[ "id" := VStr "mine" ]}) !! "id" = Some (VStr "5")
  /\ dom (shape_id (<["_id" := VInt 5]> {[ "id" := VStr "mine" ]}))
     = {[ "id" ]} ∪ (dom (<["_id" := VInt 5]> {[ "id" := VStr "mine" ]} : document)
                     ∖ {[ "_id" ]}).
Proof.
  exact (shape_id_overwrites (<["_id" := VInt 5]> {[ "id" := VStr "mine" ]}) (VInt 5) eq_refl).
Defined.

(** X17: Shaping is idempotent: a shaped list is left as it is by the loop,
    so a document that the list holds twice is not changed twice. *)
Theorem shape_ids_idempotent (items : list document) :
  shape_ids (shape_ids items) = shape_ids items.
Proof.
  unfold shape_ids. rewrite map_map. apply map_ext. intros it.
  apply shape_id_without, shape_id_internal_gone.
Qed.
